(** * AJ-Tools: Match Elevation and Copy Dimension Text

    A shallow embedding of the two pyRevit scripts

      - [AJ Tools/REF/Match Elevation Tool.py]
      - [AJ Tools/REF/Copie dim text .py]

    and the properties their specification states about them.

    Layout:
      - [Arith]      : the arithmetic of coordinates (binary64 and exact);
      - [Revit]      : the part of the host API the scripts call;
      - [MatchElevation], [CopieDimText] : the two scripts;
      - theorems. *)

From Stdlib Require Import PrimFloat QArith Qcanon Field.
From stdpp Require Import gmap strings.

(* ===================================================================== *)
(** * Arithmetic of coordinates                                           *)
(* ===================================================================== *)

(** The scripts compute with Python floats (IEEE-754 binary64).  The
    embedding is written once over the operations it uses; [float_arith]
    is the arithmetic the scripts run on, [Qc_arith] is exact rational
    arithmetic, used to state what holds up to rounding. *)

Class Arith (num : Type) : Type := {
  num_add : num -> num -> num;
  num_sub : num -> num -> num;
  num_mul : num -> num -> num;
  num_div : num -> num -> num;
  lit_2_0 : num;        (* the literal [2.0]   *)
  lit_304_8 : num       (* the literal [304.8] *)
}.

Declare Scope num_scope.
Delimit Scope num_scope with num.
Infix "+" := num_add : num_scope.
Infix "-" := num_sub : num_scope.
Infix "*" := num_mul : num_scope.
Infix "/" := num_div : num_scope.

(** An arithmetic is exact when its operations are those of a field in
    which [2.0] is [1 + 1] and is not zero. *)
Class ExactArith (num : Type) `{Arith num} : Type := {
  num_zero : num;
  num_one : num;
  num_opp : num -> num;
  num_inv : num -> num;
  exact_field :
    field_theory num_zero num_one num_add num_mul num_sub num_opp
                 num_div num_inv eq;
  lit_2_0_exact : lit_2_0 = num_add num_one num_one;
  lit_2_0_nonzero : lit_2_0 <> num_zero
}.

#[export] Instance float_arith : Arith float :=
  {| num_add := PrimFloat.add; num_sub := PrimFloat.sub;
     num_mul := PrimFloat.mul; num_div := PrimFloat.div;
     lit_2_0 := 2%float;
     lit_304_8 := 0x1.30ccccccccccdp+8%float |}.

#[export] Instance Qc_arith : Arith Qc :=
  {| num_add := Qcplus; num_sub := Qcminus;
     num_mul := Qcmult; num_div := Qcdiv;
     lit_2_0 := Q2Qc (Qmake 2 1);
     lit_304_8 := Q2Qc (Qmake 3048 10) |}.

#[export] Instance Qc_exact : ExactArith Qc.
Proof.
  refine {| num_zero := 0%Qc; num_one := 1%Qc;
            num_opp := Qcopp; num_inv := Qcinv;
            exact_field := Qcft |}.
  - apply Qc_is_canon. reflexivity.
  - intro H. apply (f_equal (fun q => Qnum (this q))) in H. discriminate H.
Defined.

(** Integers as exact coordinates, for examples. *)
Definition Qc_of_Z (z : Z) : Qc := Q2Qc (inject_Z z).

(* ===================================================================== *)
(** * Geometry                                                            *)
(* ===================================================================== *)

Section Geometry.
Context {num : Type} {A : Arith num}.
Local Open Scope num_scope.

(** [Autodesk.Revit.DB.XYZ]: the properties [X], [Y] and [Z]. *)
Record XYZ : Type := mkXYZ { X_ : num; Y_ : num; Z_ : num }.

(** A line segment as the pair of its end points,
    [curve.GetEndPoint(0)] and [curve.GetEndPoint(1)]. *)
Record Segment : Type := mkSegment { seg_start : XYZ; seg_end : XYZ }.

(** Lines 63 and 84 of the elevation tool:
    [(start_point.Z + end_point.Z) / 2.0]. *)
Definition computeMidpoint (s : Segment) : num :=
  (Z_ (seg_start s) + Z_ (seg_end s)) / lit_2_0.

(** Lines 84-91 of the elevation tool, the end points of the new line:
<<
    current_middle = (start_point.Z + end_point.Z) / 2.0
    elevation_diff = target_elevation - current_middle
    new_start = XYZ(start_point.X, start_point.Y, start_point.Z + elevation_diff)
    new_end = XYZ(end_point.X, end_point.Y, end_point.Z + elevation_diff)
>> *)
Definition shiftToMidpoint (s : Segment) (target_elevation : num) : Segment :=
  let current_middle := computeMidpoint s in
  let elevation_diff := target_elevation - current_middle in
  let new_start := mkXYZ (X_ (seg_start s)) (Y_ (seg_start s))
                        (Z_ (seg_start s) + elevation_diff) in
  let new_end := mkXYZ (X_ (seg_end s)) (Y_ (seg_end s))
                      (Z_ (seg_end s) + elevation_diff) in
  mkSegment new_start new_end.

(** The horizontal component of the vector from start to end. *)
Definition horizontal_vector (s : Segment) : num * num :=
  (X_ (seg_end s) - X_ (seg_start s),
   Y_ (seg_end s) - Y_ (seg_start s)).

End Geometry.

Arguments XYZ num : clear implicits.
Arguments Segment num : clear implicits.

(* ===================================================================== *)
(** * The host: the part of the Revit API the scripts call                *)
(* ===================================================================== *)

(** Exceptions the scripts distinguish.  [HostException] stands for any
    other exception raised inside the host API; [SystemExit] is what
    [forms.alert(..., exitscript=True)] raises, and is the only one that
    is not an instance of [Exception]. *)
Inductive exn : Type :=
| OperationCanceledException
| AttributeError
| HostException
| SystemExit.

Definition is_Exception (e : exn) : bool :=
  match e with
  | SystemExit => false
  | _ => true
  end.

(** The outcome of a computation: a value, a raised exception, or a loop
    of the model that was not given enough fuel. *)
Inductive Exc (A : Type) : Type :=
| Return (a : A)
| Raise (e : exn)
| OutOfFuel.
Arguments Return {A} a.
Arguments Raise {A} e.
Arguments OutOfFuel {A}.

(** [BuiltInCategory], as far as the scripts name it. *)
Inductive BuiltInCategory : Type :=
| OST_PipeCurves
| OST_DuctCurves
| OST_CableTray
| OST_Conduit
| OST_FlexDuctCurves
| OST_FlexPipeCurves
| OST_Walls
| OST_Dimensions.

(** [int(cat)]: the values of the enumeration in the Revit API. *)
Definition int (cat : BuiltInCategory) : Z :=
  match cat with
  | OST_PipeCurves => -2008044
  | OST_DuctCurves => -2008000
  | OST_CableTray => -2008130
  | OST_Conduit => -2008132
  | OST_FlexDuctCurves => -2008020
  | OST_FlexPipeCurves => -2008050
  | OST_Walls => -2000011
  | OST_Dimensions => -2000260
  end%Z.

(** [Reference]: what [PickObject] returns. *)
Record Reference : Type := mkReference { ElementId : Z }.

(** A Python variable holding an element: [None] or a handle on an
    element of the document. *)
Definition PyElement : Type := option Z.

(** What the operator does while a pick is pending. *)
Inductive gesture : Type :=
| Click (id : Z)
| Esc.

(** The prompts of the four [PickObject] calls; the elevation tool formats
    [source_elev_display] into its target prompt. *)
Inductive Prompt (num : Type) : Type :=
| SelectSourceElement
| ClickElementsToMatch (source_elev_display : num)
| SelectSourceDimension
| SelectTargetDimension.
Arguments SelectSourceElement {num}.
Arguments ClickElementsToMatch {num} source_elev_display.
Arguments SelectSourceDimension {num}.
Arguments SelectTargetDimension {num}.

(** The calls of [forms.alert], one constructor per call site. *)
Inductive Alert : Type :=
| CouldNotGetElevation                 (* elevation tool, line 123 *)
| NoTextFound                          (* dimension tool, line 64  *)
| ErrorDuringSelection (e : exn)       (* dimension tool, line 97  *)
| Success (updated_count : nat)        (* dimension tool, line 103 *)
| NoDimensionsUpdated                  (* dimension tool, line 105 *)
| CancelledByUser                      (* dimension tool, line 109 *)
| UnexpectedError (e : exn).           (* dimension tool, line 111 *)

Section Revit.
Context {num : Type} {A : Arith num}.
Local Open Scope num_scope.

(** [Curve]: bound lines, unbound lines and bound arcs. *)
Inductive Curve : Type :=
| Line_Bound (end0 end1 : XYZ num)
| Line_Unbound (origin direction : XYZ num)
| Arc_Bound (end0 end1 pointOnArc : XYZ num).

(** [Location] with its subclasses [LocationCurve] and [LocationPoint];
    [NoLocation] is any other location, [None] included. *)
Inductive Location : Type :=
| LocationCurve (curve : Curve)
| LocationPoint (point : XYZ num)
| NoLocation.

(** The four text fields of a [Dimension]; [None] is a null string. *)
Record DimensionText : Type := mkDimensionText {
  Above : option string;
  Below : option string;
  Prefix : option string;
  Suffix : option string
}.

(** Writing one of the four fields. *)
Definition update_Above (v : option string) (t : DimensionText) :=
  mkDimensionText v (Below t) (Prefix t) (Suffix t).
Definition update_Below (v : option string) (t : DimensionText) :=
  mkDimensionText (Above t) v (Prefix t) (Suffix t).
Definition update_Prefix (v : option string) (t : DimensionText) :=
  mkDimensionText (Above t) (Below t) v (Suffix t).
Definition update_Suffix (v : option string) (t : DimensionText) :=
  mkDimensionText (Above t) (Below t) (Prefix t) v.

(** An element of the document.  [elem_category] is
    [Category.Id.IntegerValue], [None] when the element has no category;
    [elem_dimension] is [Some] exactly for instances of [DB.Dimension]. *)
Record Element : Type := mkElement {
  elem_category : option Z;
  elem_location : Location;
  elem_dimension : option DimensionText
}.

(** [ISelectionFilter]: the interface both filters implement. *)
Record ISelectionFilter : Type := mkFilter {
  AllowElement : Element -> Exc bool;
  AllowReference : Reference -> XYZ num -> bool
}.

(** What the scripts do to the host, in order. *)
Inductive Event : Type :=
| EvPickObject (selection_filter : ISelectionFilter) (prompt : Prompt num)
| EvAlert (a : Alert)
| EvStart (name : string)
| EvCommit
| EvRollBack
| EvRefreshActiveView.

(** The state the scripts run in: the document, the gestures the operator
    still has to make, the events so far, and the document as it was when
    the open transaction started. *)
Record World : Type := mkWorld {
  doc : gmap Z Element;
  gestures : list gesture;
  trace : list Event;
  open_transaction : option (gmap Z Element)
}.

(** Decisions of the host that the scripts cannot see: whether
    [Line.CreateBound] accepts two end points, whether the setter of
    [LocationCurve.Curve] accepts a curve for an element, and whether
    the text setters of a dimension accept a write. *)
Record Host : Type := mkHost {
  valid_bound : XYZ num -> XYZ num -> bool;
  accepts_curve : Element -> Curve -> bool;
  accepts_text : Element -> bool
}.

(** ** Computations: state and exceptions *)

Definition M (T : Type) : Type := World -> Exc T * World.

Definition ret {T} (a : T) : M T := fun w => (Return a, w).

Definition raise {T} (e : exn) : M T := fun w => (Raise e, w).

Definition bind {T U} (c : M T) (k : T -> M U) : M U :=
  fun w =>
    match c w with
    | (Return a, w') => k a w'
    | (Raise e, w') => (Raise e, w')
    | (OutOfFuel, w') => (OutOfFuel, w')
    end.

(** [try: c except e: handler e]; every Python exception can be caught,
    the end of the model's fuel cannot. *)
Definition try_except {T} (c : M T) (handler : exn -> M T) : M T :=
  fun w =>
    match c w with
    | (Return a, w') => (Return a, w')
    | (Raise e, w') => handler e w'
    | (OutOfFuel, w') => (OutOfFuel, w')
    end.

Definition lift {T} (r : Exc T) : M T := fun w => (r, w).

Definition emit (ev : Event) : M unit :=
  fun w => (Return tt,
            mkWorld (doc w) (gestures w) (trace w ++ [ev])
                    (open_transaction w)).

Definition set_doc (d : gmap Z Element) : M unit :=
  fun w => (Return tt,
            mkWorld d (gestures w) (trace w) (open_transaction w)).

End Revit.

Arguments Curve num : clear implicits.
Arguments Location num : clear implicits.
Arguments Element num : clear implicits.
Arguments ISelectionFilter num : clear implicits.
Arguments Event num : clear implicits.
Arguments World num : clear implicits.
Arguments Host num : clear implicits.
Arguments M num T : clear implicits.

Notation "x <- c1 ;; c2" := (bind c1 (fun x => c2))
  (at level 100, c1 at next level, right associativity).
Notation "c1 ;; c2" := (bind c1 (fun _ => c2))
  (at level 100, right associativity).

Section HostAPI.
Context {num : Type} {A : Arith num}.
Variable host : Host num.

(** [curve.GetEndPoint(index)]: the ends of a bound curve; an unbound
    curve has none. *)
Definition GetEndPoint (curve : Curve num) (index : Z) : Exc (XYZ num) :=
  match curve with
  | Line_Bound end0 end1 | Arc_Bound end0 end1 _ =>
      if (index =? 0)%Z then Return end0
      else if (index =? 1)%Z then Return end1
      else Raise HostException
  | Line_Unbound _ _ => Raise HostException
  end.

(** [Line.CreateBound(end0, end1)]. *)
Definition Line_CreateBound (end0 end1 : XYZ num) : Exc (Curve num) :=
  if valid_bound host end0 end1 then Return (Line_Bound end0 end1)
  else Raise HostException.

(** The element a Python variable holds, for an attribute access. *)
Definition deref (element : PyElement) : M num (Element num) :=
  fun w =>
    match element with
    | None => (Raise AttributeError, w)
    | Some id =>
        match doc w !! id with
        | Some e => (Return e, w)
        | None => (Raise HostException, w)
        end
    end.

(** [element.Location]. *)
Definition get_Location (element : PyElement) : M num (Location num) :=
  e <- deref element ;; ret (elem_location e).

(** The host object behind [element] takes a new state. *)
Definition store (element : PyElement) (e : Element num) : M num unit :=
  fun w =>
    match element with
    | Some id => set_doc (<[id := e]> (doc w)) w
    | None => (Raise AttributeError, w)
    end.

(** [location.Curve = curve], for the location of [element]. *)
Definition set_Curve (element : PyElement) (curve : Curve num) : M num unit :=
  e <- deref element ;;
  if accepts_curve host e curve then
    store element (mkElement (elem_category e) (LocationCurve curve)
                             (elem_dimension e))
  else raise HostException.

(** [dim.Above], [dim.Below], [dim.Prefix], [dim.Suffix]: only a
    [Dimension] has these attributes. *)
Definition get_text (field : DimensionText -> option string)
    (dim : PyElement) : M num (option string) :=
  e <- deref dim ;;
  match elem_dimension e with
  | Some t => ret (field t)
  | None => raise AttributeError
  end.

(** [dim.Above = v] and the like: [update] writes the field. *)
Definition set_text (update : option string -> DimensionText -> DimensionText)
    (dim : PyElement) (v : option string) : M num unit :=
  e <- deref dim ;;
  match elem_dimension e with
  | Some t =>
      if accepts_text host e then
        store dim (mkElement (elem_category e) (elem_location e)
                             (Some (update v t)))
      else raise HostException
  | None => raise AttributeError
  end.

Definition set_Above : PyElement -> option string -> M num unit :=
  set_text update_Above.
Definition set_Below : PyElement -> option string -> M num unit :=
  set_text update_Below.
Definition set_Prefix : PyElement -> option string -> M num unit :=
  set_text update_Prefix.
Definition set_Suffix : PyElement -> option string -> M num unit :=
  set_text update_Suffix.

(** [doc.GetElement(id)]: the element, or [None]. *)
Definition GetElement (id : Z) : M num PyElement :=
  fun w =>
    match doc w !! id with
    | Some _ => (Return (Some id), w)
    | None => (Return None, w)
    end.

(** The pick gesture under a filter: a click on an element the filter
    rejects, or on no element, selects nothing and the pick stays
    pending; Esc cancels it.  A session in which the operator makes no
    further gesture ends like one cancelled. *)
Fixpoint pick_scan (selection_filter : ISelectionFilter num)
    (d : gmap Z (Element num)) (gs : list gesture)
    : Exc Reference * list gesture :=
  match gs with
  | [] => (Raise OperationCanceledException, [])
  | Esc :: gs' => (Raise OperationCanceledException, gs')
  | Click id :: gs' =>
      match d !! id with
      | None => pick_scan selection_filter d gs'
      | Some e =>
          match AllowElement selection_filter e with
          | Return true => (Return (mkReference id), gs')
          | Return false => pick_scan selection_filter d gs'
          | Raise ex => (Raise ex, gs')
          | OutOfFuel => (OutOfFuel, gs')
          end
      end
  end.

(** [uidoc.Selection.PickObject(ObjectType.Element, selection_filter, prompt)]. *)
Definition PickObject (selection_filter : ISelectionFilter num)
    (prompt : Prompt num) : M num Reference :=
  emit (EvPickObject selection_filter prompt) ;;
  fun w =>
    let '(r, gs') := pick_scan selection_filter (doc w) (gestures w) in
    (r, mkWorld (doc w) gs' (trace w) (open_transaction w)).

(** [forms.alert(...)]. *)
Definition alert (a : Alert) : M num unit := emit (EvAlert a).

(** [uidoc.RefreshActiveView()]. *)
Definition RefreshActiveView : M num unit := emit EvRefreshActiveView.

(** ** Transactions *)

(** [t.Start()]: the document is remembered as it is. *)
Definition Start (name : string) : M num unit :=
  fun w => (Return tt,
            mkWorld (doc w) (gestures w) (trace w ++ [EvStart name])
                    (Some (doc w))).

(** [t.Commit()]; the host is taken to accept the commit of a
    transaction whose writes it has accepted. *)
Definition Commit : M num unit :=
  fun w => (Return tt,
            mkWorld (doc w) (gestures w) (trace w ++ [EvCommit]) None).

(** [t.RollBack()]: an open transaction is undone, otherwise nothing
    happens. *)
Definition RollBack : M num unit :=
  fun w =>
    match open_transaction w with
    | Some d => (Return tt,
                 mkWorld d (gestures w) (trace w ++ [EvRollBack]) None)
    | None => (Return tt, w)
    end.

(** [with revit.Transaction(name): body] of pyRevit: started on entry,
    committed on exit, rolled back when the body raises. *)
Definition with_revit_Transaction {T} (name : string) (body : M num T)
    : M num T :=
  Start name ;;
  try_except (r <- body ;; Commit ;; ret r)
             (fun e => RollBack ;; raise e).

(** [t.Dispose()]: a transaction still open is rolled back. *)
Definition Dispose : M num unit := RollBack.

(** [with DB.Transaction(doc, name) as t: body]: the body starts and
    commits [t] itself; leaving the block disposes of [t]. *)
Definition with_DB_Transaction {T} (body : M num T) : M num T :=
  try_except (r <- body ;; Dispose ;; ret r)
             (fun e => Dispose ;; raise e).

(** ** [while True:] *)

(** One round of the loop either goes on ([inl]) or breaks ([inr]), with
    the loop's variables. *)
Fixpoint while_fuel {St} (fuel : nat) (round : St -> M num (St + St))
    (s : St) : M num St :=
  match fuel with
  | O => lift OutOfFuel
  | S fuel' =>
      r <- round s ;;
      match r with
      | inl s' => while_fuel fuel' round s'
      | inr s' => ret s'
      end
  end.

(** Each round of the scripts' loops waits for a pick, so a loop takes at
    most one round per gesture left, and one more. *)
Definition while_True {St} (round : St -> M num (St + St)) (s : St)
    : M num St :=
  fun w => while_fuel (S (length (gestures w))) round s w.

End HostAPI.

(* ===================================================================== *)
(** * Match Elevation Tool.py                                             *)
(* ===================================================================== *)

Module MatchElevation.
Section Script.
Context {num : Type} {A : Arith num}.
Variable host : Host num.
Local Open Scope num_scope.

(** Lines 31-38. *)
Definition categories : list BuiltInCategory :=
  [ OST_PipeCurves; OST_DuctCurves; OST_CableTray;
    OST_Conduit; OST_FlexDuctCurves; OST_FlexPipeCurves ].

(** Lines 40-43, for an element whose [Category.Id.IntegerValue] is
    [integer_value]. *)
Fixpoint AllowElement_loop (integer_value : Z) (cats : list BuiltInCategory)
    : bool :=
  match cats with
  | [] => false
  | cat :: cats' =>
      if (integer_value =? int cat)%Z then true
      else AllowElement_loop integer_value cats'
  end.

(** [MEPElementFilter.AllowElement]; an element without a category has
    no [Category.Id]. *)
Definition MEPElementFilter_AllowElement (element : Element num) : Exc bool :=
  match elem_category element with
  | None => Raise AttributeError
  | Some integer_value => Return (AllowElement_loop integer_value categories)
  end.

(** [MEPElementFilter.AllowReference]. *)
Definition MEPElementFilter_AllowReference (reference : Reference)
    (position : XYZ num) : bool :=
  false.

Definition MEPElementFilter : ISelectionFilter num :=
  mkFilter MEPElementFilter_AllowElement MEPElementFilter_AllowReference.

(** Lines 52-65: what [get_element_middle_elevation] tries. *)
Definition get_element_middle_elevation_body (element : PyElement)
    : M num (option num) :=
  location <- get_Location element ;;
  match location with
  | LocationCurve curve =>
      start_point <- lift (GetEndPoint curve 0) ;;
      end_point <- lift (GetEndPoint curve 1) ;;
      let middle_elevation :=
        computeMidpoint (mkSegment start_point end_point) in
      ret (Some middle_elevation)
  | _ => ret None
  end.

(** Lines 48-67. *)
Definition get_element_middle_elevation (element : PyElement)
    : M num (option num) :=
  try_except (get_element_middle_elevation_body element)
             (fun _ => ret None).

(** Lines 73-99: what [set_element_elevation] tries. *)
Definition set_element_elevation_body (element : PyElement)
    (target_elevation : num) : M num bool :=
  location <- get_Location element ;;
  match location with
  | LocationCurve curve =>
      start_point <- lift (GetEndPoint curve 0) ;;
      end_point <- lift (GetEndPoint curve 1) ;;
      let shifted :=
        shiftToMidpoint (mkSegment start_point end_point)
                        target_elevation in
      let new_start := seg_start shifted in
      let new_end := seg_end shifted in
      new_line <- lift (Line_CreateBound host new_start new_end) ;;
      set_Curve host element new_line ;;
      ret true
  | _ => ret false
  end.

(** Lines 69-101. *)
Definition set_element_elevation (element : PyElement)
    (target_elevation : num) : M num bool :=
  try_except (set_element_elevation_body element target_elevation)
             (fun _ => ret false).

(** Lines 135-153, one round of the loop. *)
Definition target_round (source_elevation source_elev_display : num)
    (counter : nat) : M num (nat + nat) :=
  try_except
    (target_ref <- PickObject MEPElementFilter
                     (ClickElementsToMatch source_elev_display) ;;
     target_element <- GetElement (ElementId target_ref) ;;
     with_revit_Transaction "Match Elevation"
       (set_element_elevation target_element source_elevation) ;;
     ret (inl (S counter)))
    (fun _ => ret (inr counter)).

(** Lines 132-153: the loop, from [counter = 0]; its value is [counter]
    when the loop is left. *)
Definition target_loop (source_elevation source_elev_display : num)
    : M num nat :=
  while_True (target_round source_elevation source_elev_display) 0%nat.

(** Lines 103-157. *)
Definition main : M num unit :=
  try_except
    (source_ref <- PickObject MEPElementFilter SelectSourceElement ;;
     source_element <- GetElement (ElementId source_ref) ;;
     source_elevation <- get_element_middle_elevation source_element ;;
     match source_elevation with
     | None =>
         alert CouldNotGetElevation ;;
         raise SystemExit
     | Some source_elevation =>
         let source_elev_display := source_elevation * lit_304_8 in
         target_loop source_elevation source_elev_display ;;
         ret tt
     end)
    (fun _ => ret tt).

End Script.
End MatchElevation.

(* ===================================================================== *)
(** * Copie dim text .py                                                  *)
(* ===================================================================== *)

Module CopieDimText.
Section Script.
Context {num : Type} {A : Arith num}.
Variable host : Host num.

(** [DimensionSelectionFilter.AllowElement]:
    [isinstance(elem, DB.Dimension)]. *)
Definition DimensionSelectionFilter_AllowElement (elem : Element num)
    : Exc bool :=
  match elem_dimension elem with
  | Some _ => Return true
  | None => Return false
  end.

(** [DimensionSelectionFilter.AllowReference]. *)
Definition DimensionSelectionFilter_AllowReference (reference : Reference)
    (position : XYZ num) : bool :=
  false.

Definition DimensionSelectionFilter : ISelectionFilter num :=
  mkFilter DimensionSelectionFilter_AllowElement
           DimensionSelectionFilter_AllowReference.

(** Truth value of a text field: [None] and the empty string are false. *)
Definition truthy (text : option string) : bool :=
  match text with
  | Some (String _ _) => true
  | Some EmptyString => false
  | None => false
  end.

(** Line 63:
    [not text_above and not text_below and not text_prefix and not text_suffix]. *)
Definition no_text (text_above text_below text_prefix text_suffix
    : option string) : bool :=
  negb (truthy text_above) && negb (truthy text_below)
  && negb (truthy text_prefix) && negb (truthy text_suffix).

(** Lines 70-98, one round of the loop. *)
Definition paste_round (text_above text_below text_prefix text_suffix
    : option string) (updated_count : nat) : M num (nat + nat) :=
  try_except
    (target_ref <- PickObject DimensionSelectionFilter
                     SelectTargetDimension ;;
     with_DB_Transaction
       (Start "Paste Dimension Text" ;;
        target_dim <- GetElement (ElementId target_ref) ;;
        set_Above host target_dim text_above ;;
        set_Below host target_dim text_below ;;
        set_Prefix host target_dim text_prefix ;;
        set_Suffix host target_dim text_suffix ;;
        Commit) ;;
     RefreshActiveView ;;
     ret (inl (S updated_count)))
    (fun e =>
       match e with
       | OperationCanceledException => ret (inr updated_count)
       | _ =>
           if is_Exception e then
             alert (ErrorDuringSelection e) ;;
             ret (inr updated_count)
           else raise e
       end).

(** Lines 43-115. *)
Definition main : M num unit :=
  try_except
    (source_ref <- PickObject DimensionSelectionFilter
                     SelectSourceDimension ;;
     source_dim <- GetElement (ElementId source_ref) ;;
     match source_dim with
     | None => ret tt
     | Some _ =>
         text_above <- get_text Above source_dim ;;
         text_below <- get_text Below source_dim ;;
         text_prefix <- get_text Prefix source_dim ;;
         text_suffix <- get_text Suffix source_dim ;;
         if no_text text_above text_below text_prefix text_suffix then
           alert NoTextFound
         else
           updated_count <-
             while_True (paste_round text_above text_below
                                     text_prefix text_suffix) 0%nat ;;
           if (0 <? updated_count)%nat then alert (Success updated_count)
           else alert NoDimensionsUpdated
     end)
    (fun e =>
       match e with
       | OperationCanceledException => alert CancelledByUser
       | _ =>
           if is_Exception e then alert (UnexpectedError e)
           else raise e
       end).

End Script.
End CopieDimText.

(* ===================================================================== *)
(** * Worlds for examples                                                 *)
(* ===================================================================== *)

(** A host that accepts every line, every curve and every text. *)
Definition accepting_host {num : Type} : Host num :=
  mkHost (fun _ _ => true) (fun _ _ => true) (fun _ => true).

(** A host that refuses to write text on a dimension without a category
    and accepts everything else. *)
Definition strict_host {num : Type} : Host num :=
  mkHost (fun _ _ => true) (fun _ _ => true)
         (fun e => match elem_category e with Some _ => true | None => false end).

Definition pt (x y z : float) : XYZ float := mkXYZ x y z.

(** A pipe along the bound line from [p] to [q]. *)
Definition pipe {num : Type} (p q : XYZ num) : Element num :=
  mkElement (Some (int OST_PipeCurves)) (LocationCurve (Line_Bound p q)) None.

(** A dimension with the given text fields. *)
Definition dimension {num : Type} (category : option Z)
    (above below prefix suffix : option string) : Element num :=
  mkElement category NoLocation
            (Some (mkDimensionText above below prefix suffix)).

Definition initial_world {num : Type} (d : gmap Z (Element num))
    (gs : list gesture) : World num :=
  mkWorld d gs [] None.

Definition ptQ (x y z : Z) : XYZ Qc :=
  mkXYZ (Qc_of_Z x) (Qc_of_Z y) (Qc_of_Z z).

(** The segment of the specification's scenario: from (0,0,0) to
    (10,0,4), midpoint elevation 2. *)
Definition scenario_segment : Segment Qc :=
  mkSegment (ptQ 0 0 0) (ptQ 10 0 4).

Definition scenario_pipe : Element Qc :=
  pipe (seg_start scenario_segment) (seg_end scenario_segment).

Definition scenario_world : World Qc :=
  initial_world {[ 1%Z := scenario_pipe ]} [].

(** A segment and an elevation in binary64: the heights are the doubles
    nearest to 10.1 and 12.3, the elevation the one nearest to 3.7. *)
Definition rounding_segment : Segment float :=
  mkSegment (pt 0 0 0x1.4333333333333p+3) (pt 1 0 0x1.899999999999ap+3).

Definition rounding_elevation : float := 0x1.d99999999999ap+1%float.

(** Two level segments in binary64: one at height 1e16, where the
    spacing of the doubles is 2, with an elevation near 0.3; one at
    height 2^1023, the double of which is not a finite double. *)
Definition absorbing_segment : Segment float :=
  mkSegment (pt 0 0 1e16) (pt 10 0 1e16).

Definition absorbed_elevation : float := 0x1.3333333333333p-2%float.

Definition overflowing_segment : Segment float :=
  mkSegment (pt 0 0 0x1p+1023) (pt 10 0 0x1p+1023).

(** An element of the pipe category lying along a bound arc. *)
Definition arc_element : Element float :=
  mkElement (Some (int OST_PipeCurves))
            (LocationCurve (Arc_Bound (pt 0 0 0) (pt 10 0 0) (pt 5 5 0)))
            None.

Definition arc_world : World float :=
  initial_world {[ 7%Z := arc_element ]} [].

(** An element of the pipe category located at a point. *)
Definition point_element : Element float :=
  mkElement (Some (int OST_PipeCurves)) (LocationPoint (pt 3 3 3)) None.

(** The scenario of three targets of which the second cannot be moved:
    two pipes and, between them, the element located at a point. *)
Definition three_targets : gmap Z (Element float) :=
  {[ 1%Z := pipe (pt 0 0 0) (pt 10 0 4);
     2%Z := point_element;
     3%Z := pipe (pt 0 0 7) (pt 10 0 11) ]}.

Definition three_targets_world : World float :=
  initial_world three_targets [Click 1%Z; Click 2%Z; Click 3%Z; Esc].

(** Dimensions: a source with text above and a prefix, an empty text
    below and no suffix; a source without any text; and three targets of
    which the second has no category, so that [strict_host] refuses to
    write on it. *)
Definition source_dimension : Element float :=
  dimension (Some (int OST_Dimensions))
            (Some "A"%string) (Some ""%string) (Some "PRE"%string) None.

Definition blank_dimension : Element float :=
  dimension (Some (int OST_Dimensions)) None (Some ""%string) None None.

Definition target_dimension : Element float :=
  dimension (Some (int OST_Dimensions)) None (Some "OLD"%string) None None.

Definition locked_dimension : Element float :=
  dimension None None (Some "OLD"%string) None None.

Definition dimensions : gmap Z (Element float) :=
  {[ 10%Z := source_dimension; 11%Z := blank_dimension;
     1%Z := target_dimension; 2%Z := locked_dimension;
     3%Z := target_dimension ]}.

(** The source, then the three targets, then Esc. *)
Definition three_dimensions_world : World float :=
  initial_world dimensions
    [Click 10%Z; Click 1%Z; Click 2%Z; Click 3%Z; Esc].

(** The source without text, then a target. *)
Definition blank_source_world : World float :=
  initial_world dimensions [Click 11%Z; Click 1%Z; Esc].

(** One click on the element located at a point, then Esc. *)
Definition point_world : World float :=
  initial_world {[ 2%Z := point_element ]} [Click 2%Z; Esc].

(* ===================================================================== *)
(** * What the helpers of the elevation tool compute                      *)
(* ===================================================================== *)

Section ElevationSpec.
Context {num : Type} {A : Arith num}.
Variable host : Host num.

(** The two end points of a curve, when it has them. *)
Definition end_points (curve : Curve num) : option (Segment num) :=
  match GetEndPoint curve 0, GetEndPoint curve 1 with
  | Return p, Return q => Some (mkSegment p q)
  | _, _ => None
  end.

(** The line [set_element_elevation] writes on element [e], when every
    step up to the write goes through. *)
Definition new_line (e : Element num) (target_elevation : num)
    : option (Curve num) :=
  match elem_location e with
  | LocationCurve curve =>
      match end_points curve with
      | Some s =>
          let s' := shiftToMidpoint s target_elevation in
          let line := Line_Bound (seg_start s') (seg_end s') in
          if valid_bound host (seg_start s') (seg_end s')
             && accepts_curve host e line
          then Some line else None
      | None => None
      end
  | _ => None
  end.

(** The document after [set_element_elevation element target_elevation]. *)
Definition doc_after_set (target_elevation : num)
    (d : gmap Z (Element num)) (element : PyElement)
    : gmap Z (Element num) :=
  match element with
  | Some id =>
      match d !! id with
      | Some e =>
          match new_line e target_elevation with
          | Some line =>
              <[id := mkElement (elem_category e) (LocationCurve line)
                                (elem_dimension e)]> d
          | None => d
          end
      | None => d
      end
  | None => d
  end.

(** What [set_element_elevation element target_elevation] returns. *)
Definition set_succeeds (target_elevation : num)
    (d : gmap Z (Element num)) (element : PyElement) : bool :=
  match element with
  | Some id =>
      match d !! id with
      | Some e =>
          match new_line e target_elevation with
          | Some _ => true
          | None => false
          end
      | None => false
      end
  | None => false
  end.

(** What [get_element_middle_elevation element] returns. *)
Definition middle_elevation_of (d : gmap Z (Element num))
    (element : PyElement) : option num :=
  match element with
  | Some id =>
      match d !! id with
      | Some e =>
          match elem_location e with
          | LocationCurve curve => computeMidpoint <$> end_points curve
          | _ => None
          end
      | None => None
      end
  | None => None
  end.

(** An element the MEP filter lets the operator pick. *)
Definition pickable (selection_filter : ISelectionFilter num)
    (d : gmap Z (Element num)) (id : Z) : Prop :=
  exists e, d !! id = Some e /\ AllowElement selection_filter e = Return true.

End ElevationSpec.

(** The alerts among some events. *)
Definition alerts {num : Type} (l : list (Event num)) : list Alert :=
  omap (fun ev => match ev with EvAlert a => Some a | _ => None end) l.

(** The pick requests among some events, with their filters. *)
Definition pick_requests {num : Type} (l : list (Event num))
    : list (ISelectionFilter num * Prompt num) :=
  omap (fun ev => match ev with
                  | EvPickObject f p => Some (f, p)
                  | _ => None
                  end) l.

(** The number of committed transactions among some events. *)
Definition commits {num : Type} (l : list (Event num)) : nat :=
  length (omap (fun ev => match ev with EvCommit => Some tt | _ => None end) l).

Section LoopSpec.
Context {num : Type} {A : Arith num}.

(** A round of a loop is productive when it never runs out of fuel and
    goes on only after a gesture has been consumed. *)
Definition productive {St} (round : St -> M num (St + St)) : Prop :=
  forall s w,
    match round s w with
    | (Return (inl _), w') => length (gestures w') < length (gestures w)
    | (Return (inr _), _) => True
    | (Raise _, _) => True
    | (OutOfFuel, _) => False
    end.

(** The events of a round of the elevation tool's loop in which an
    element was picked. *)
Definition target_events (source_elev_display : num) : list (Event num) :=
  [ EvPickObject MatchElevation.MEPElementFilter
      (ClickElementsToMatch source_elev_display);
    EvStart "Match Elevation"; EvCommit ].

(** The pick requests of some events all carry the filter [f]. *)
Definition picks_under (f : ISelectionFilter num) (l : list (Event num))
    : Prop :=
  Forall (fun fp => fst fp = f) (pick_requests l).

End LoopSpec.

Section DimensionSpec.
Context {num : Type} {A : Arith num}.
Variable host : Host num.

(** The element after one text field is written, or the exception the
    write raises. *)
Definition write_text (update : option string -> DimensionText -> DimensionText)
    (v : option string) (e : Element num) : Element num + exn :=
  match elem_dimension e with
  | Some t =>
      if accepts_text host e then
        inl (mkElement (elem_category e) (elem_location e)
                       (Some (update v t)))
      else inr HostException
  | None => inr AttributeError
  end.

(** The element after the four writes of lines 81-84, or the exception
    of the first write that fails. *)
Definition paste (text_above text_below text_prefix text_suffix
    : option string) (e : Element num) : Element num + exn :=
  match write_text update_Above text_above e with
  | inl e1 =>
      match write_text update_Below text_below e1 with
      | inl e2 =>
          match write_text update_Prefix text_prefix e2 with
          | inl e3 => write_text update_Suffix text_suffix e3
          | inr ex => inr ex
          end
      | inr ex => inr ex
      end
  | inr ex => inr ex
  end.

(** The events of a round of the dimension tool's loop that updates a
    dimension, and of one in which a write fails with [ex]. *)
Definition paste_events : list (Event num) :=
  [ EvPickObject CopieDimText.DimensionSelectionFilter SelectTargetDimension;
    EvStart "Paste Dimension Text"; EvCommit; EvRefreshActiveView ].

Definition failure_events (ex : exn) : list (Event num) :=
  [ EvPickObject CopieDimText.DimensionSelectionFilter SelectTargetDimension;
    EvStart "Paste Dimension Text"; EvRollBack;
    EvAlert (ErrorDuringSelection ex) ].

(** The alert of lines 101-105. *)
Definition summary (updated_count : nat) : Alert :=
  if (0 <? updated_count)%nat then Success updated_count
  else NoDimensionsUpdated.

(** A text field that is absent or empty. *)
Definition absent_or_empty (text : option string) : Prop :=
  text = None \/ text = Some ""%string.

End DimensionSpec.

(* ===================================================================== *)
(** * What sessions keep and reach: definitions                           *)
(* ===================================================================== *)

Section SessionSpec.
Context {num : Type} {A : Arith num}.
Local Open Scope num_scope.

(** An element that is exactly as it was, or that lay along a curve
    with end points and now lies along the bound line between two points
    that have the [X] and [Y] of these end points, with its category and
    its text fields as they were. *)
Definition kept_or_moved_vertically (e e' : Element num) : Prop :=
  e' = e \/
  exists (curve : Curve num) (s : Segment num) (p q : XYZ num),
    elem_location e = LocationCurve curve /\
    end_points curve = Some s /\
    e' = mkElement (elem_category e) (LocationCurve (Line_Bound p q))
                   (elem_dimension e) /\
    X_ p = X_ (seg_start s) /\ Y_ p = Y_ (seg_start s) /\
    X_ q = X_ (seg_end s) /\ Y_ q = Y_ (seg_end s).

(** Two documents with the same elements, each of them kept or moved
    vertically. *)
Definition only_heights_changed (d d' : gmap Z (Element num)) : Prop :=
  forall id : Z,
    match d !! id, d' !! id with
    | Some e, Some e' => kept_or_moved_vertically e e'
    | None, None => True
    | _, _ => False
    end.

(** The rise of a segment, from its start to its end. *)
Definition rise (s : Segment num) : num :=
  Z_ (seg_end s) - Z_ (seg_start s).

End SessionSpec.
(** A source that cannot be read, then a pipe. *)
Definition unreadable_source_world : World float :=
  initial_world three_targets [Click 2%Z; Click 1%Z; Esc].

(** Esc at the first pick, whatever follows. *)
Definition cancelled_world : World float :=
  initial_world three_targets [Esc; Click 1%Z].

(** An element lying along an unbound line. *)
Definition unbound_element : Element float :=
  mkElement (Some (int OST_PipeCurves))
            (LocationCurve (Line_Unbound (pt 0 0 0) (pt 1 0 0))) None.

Definition curves_world : World float :=
  initial_world {[ 7%Z := arc_element; 8%Z := unbound_element ]} [].
(** Three pipes at different heights, in exact arithmetic: the first is
    the source, the other two are clicked, the second of them twice. *)
Definition pipes_Qc : gmap Z (Element Qc) :=
  {[ 1%Z := pipe (ptQ 0 0 0) (ptQ 10 0 4);
     2%Z := pipe (ptQ 0 5 7) (ptQ 10 5 11);
     3%Z := pipe (ptQ 3 3 (-1)) (ptQ 3 9 (-1)) ]}.

Definition pipes_Qc_world : World Qc :=
  initial_world pipes_Qc
    [Click 1%Z; Click 2%Z; Click 3%Z; Click 3%Z; Esc].
Section DimensionSessionSpec.
Context {num : Type} {A : Arith num}.

(** An element with the four text fields overwritten. *)
Definition pasted (text_above text_below text_prefix text_suffix
    : option string) (e : Element num) : Element num :=
  mkElement (elem_category e) (elem_location e)
            (Some (mkDimensionText text_above text_below
                                   text_prefix text_suffix)).

(** [isinstance(e, DB.Dimension)]. *)
Definition is_dimension (e : Element num) : bool :=
  match elem_dimension e with
  | Some _ => true
  | None => false
  end.

(** Two documents with the same elements, each with the same category
    and location, dimensions being dimensions in both. *)
Definition same_but_texts (d d' : gmap Z (Element num)) : Prop :=
  forall id : Z,
    elem_category <$> d' !! id = elem_category <$> d !! id /\
    elem_location <$> d' !! id = elem_location <$> d !! id /\
    is_dimension <$> d' !! id = is_dimension <$> d !! id.

(** Events in which every transaction that is started is committed or
    rolled back before the next one starts and before the next pick;
    [open] tells whether a transaction is open at the beginning. *)
Fixpoint well_bracketed (open : bool) (l : list (Event num)) : bool :=
  match l with
  | [] => negb open
  | EvStart _ :: l' => negb open && well_bracketed true l'
  | EvCommit :: l' => open && well_bracketed false l'
  | EvRollBack :: l' => open && well_bracketed false l'
  | EvPickObject _ _ :: l' => negb open && well_bracketed open l'
  | _ :: l' => well_bracketed open l'
  end.

End DimensionSessionSpec.
Section DimensionClicksSpec.
Context {num : Type} {A : Arith num}.

(** The document after the four text fields of the element [id], if there
    is one, are overwritten. *)
Definition paste_on (text_above text_below text_prefix text_suffix
    : option string) (d : gmap Z (Element num)) (id : Z)
    : gmap Z (Element num) :=
  match d !! id with
  | Some e =>
      <[id := pasted text_above text_below text_prefix text_suffix e]> d
  | None => d
  end.

(** The number of view refreshes among some events. *)
Definition refreshes (l : list (Event num)) : nat :=
  length (omap (fun ev => match ev with
                          | EvRefreshActiveView => Some tt
                          | _ => None
                          end) l).

End DimensionClicksSpec.
(** The source, then its three targets, the first of them twice, then
    Esc; the pipe of the document is clicked in between. *)
Definition paste_world : World float :=
  initial_world (<[5%Z := pipe (pt 0 0 0) (pt 1 1 1)]> dimensions)
    [Click 10%Z; Click 1%Z; Click 2%Z; Click 1%Z; Click 3%Z; Esc].

(* ===================================================================== *)
(** * Properties of the elevation transform                               *)
(* ===================================================================== *)

Section TransformAnyArith.
Context {num : Type} {A : Arith num}.
Local Open Scope num_scope.

Lemma shiftToMidpoint_unfold (s : Segment num) (E : num) :
  shiftToMidpoint s E =
  mkSegment
    (mkXYZ (X_ (seg_start s)) (Y_ (seg_start s))
           (Z_ (seg_start s) + (E - computeMidpoint s)))
    (mkXYZ (X_ (seg_end s)) (Y_ (seg_end s))
           (Z_ (seg_end s) + (E - computeMidpoint s))).
Proof. reflexivity. Qed.

End TransformAnyArith.

Section TransformExactArith.
Context {num : Type} {A : Arith num} {EA : ExactArith num}.
Local Open Scope num_scope.

Add Field num_field : exact_field.

Lemma two_nonzero : num_one + num_one <> num_zero.
Proof. rewrite <- lit_2_0_exact. apply lit_2_0_nonzero. Qed.

Lemma computeMidpoint_shiftToMidpoint (s : Segment num) (E : num) :
  computeMidpoint (shiftToMidpoint s E) = E.
Proof.
  unfold shiftToMidpoint, computeMidpoint. simpl.
  rewrite lit_2_0_exact. field. apply two_nonzero.
Qed.

Lemma shift_by_nothing (z E : num) : z + (E - E) = z.
Proof. ring. Qed.

Lemma shiftToMidpoint_at_midpoint (s : Segment num) :
  shiftToMidpoint s (computeMidpoint s) = s.
Proof.
  rewrite shiftToMidpoint_unfold. rewrite !shift_by_nothing.
  destruct s as [[x0 y0 z0] [x1 y1 z1]]. reflexivity.
Qed.

Lemma shiftToMidpoint_twice (s : Segment num) (E : num) :
  shiftToMidpoint (shiftToMidpoint s E) E = shiftToMidpoint s E.
Proof.
  rewrite <- (computeMidpoint_shiftToMidpoint s E) at 2.
  apply shiftToMidpoint_at_midpoint.
Qed.

End TransformExactArith.

(* ===================================================================== *)
(** * The helpers of the elevation tool                                   *)
(* ===================================================================== *)

Section ElevationHelpers.
Context {num : Type} {A : Arith num}.
Variable host : Host num.
Import MatchElevation.

Lemma world_eta (w : World num) :
  mkWorld (doc w) (gestures w) (trace w) (open_transaction w) = w.
Proof. destruct w; reflexivity. Qed.

Lemma get_element_middle_elevation_run (element : PyElement) (w : World num) :
  get_element_middle_elevation element w
  = (Return (middle_elevation_of (doc w) element), w).
Proof.
  unfold get_element_middle_elevation, get_element_middle_elevation_body,
    middle_elevation_of, try_except, get_Location, deref, end_points,
    lift, ret, bind.
  destruct element as [id|]; [|reflexivity].
  destruct (doc w !! id) as [e|]; [|reflexivity].
  destruct (elem_location e) as [curve| |]; try reflexivity.
  destruct curve; reflexivity.
Qed.

Lemma set_element_elevation_run (element : PyElement) (E : num)
    (w : World num) :
  set_element_elevation host element E w
  = (Return (set_succeeds host E (doc w) element),
     mkWorld (doc_after_set host E (doc w) element)
             (gestures w) (trace w) (open_transaction w)).
Proof.
  unfold set_element_elevation, set_element_elevation_body, set_succeeds,
    doc_after_set, new_line, try_except, get_Location, deref, end_points,
    lift, ret, Line_CreateBound, set_Curve, store, set_doc, raise, bind.
  destruct element as [id|]; [|now rewrite world_eta].
  destruct (doc w !! id) as [e|] eqn:He; [|now rewrite world_eta].
  destruct (elem_location e) as [curve| |]; try now rewrite world_eta.
  destruct curve as [p q|o d|p q m]; simpl; try now rewrite world_eta.
  - destruct (valid_bound host _ _); simpl; [|now rewrite world_eta].
    rewrite He.
    destruct (accepts_curve host e _); simpl; [reflexivity|now rewrite world_eta].
  - destruct (valid_bound host _ _); simpl; [|now rewrite world_eta].
    rewrite He.
    destruct (accepts_curve host e _); simpl; [reflexivity|now rewrite world_eta].
Qed.

End ElevationHelpers.

Section ElevationHelperProperties.
Context {num : Type} {A : Arith num}.
Variable host : Host num.
Import MatchElevation.

Lemma new_line_not_LocationCurve (e : Element num) (E : num) :
  (forall curve, elem_location e <> LocationCurve curve) ->
  new_line host e E = None.
Proof.
  intros Hloc. unfold new_line.
  destruct (elem_location e) as [curve| |]; try reflexivity.
  now destruct (Hloc curve).
Qed.

Lemma set_fails_doc_unchanged (E : num) (d : gmap Z (Element num))
    (element : PyElement) :
  set_succeeds host E d element = false ->
  doc_after_set host E d element = d.
Proof.
  unfold set_succeeds, doc_after_set.
  destruct element as [id|]; [|reflexivity].
  destruct (d !! id) as [e|]; [|reflexivity].
  now destruct (new_line host e E).
Qed.

(** C2. Whatever the arithmetic (binary64 included), [shiftToMidpoint]
    copies the [X] and [Y] of both end points, so the horizontal vector
    from start to end is the same before and after; and when
    [set_element_elevation] returns [True] on an element whose curve has
    the end points of [s], the element lies along the line between the
    end points of [shiftToMidpoint s E]. *)
Theorem shiftToMidpoint_horizontal_unchanged (s : Segment num) (E : num) :
  (X_ (seg_start (shiftToMidpoint s E)) = X_ (seg_start s) /\
   Y_ (seg_start (shiftToMidpoint s E)) = Y_ (seg_start s) /\
   X_ (seg_end (shiftToMidpoint s E)) = X_ (seg_end s) /\
   Y_ (seg_end (shiftToMidpoint s E)) = Y_ (seg_end s) /\
   horizontal_vector (shiftToMidpoint s E) = horizontal_vector s) /\
  (forall (w w' : World num) (id : Z) (e : Element num) (curve : Curve num),
      doc w !! id = Some e ->
      elem_location e = LocationCurve curve ->
      end_points curve = Some s ->
      set_element_elevation host (Some id) E w = (Return true, w') ->
      elem_location <$> doc w' !! id
      = Some (LocationCurve
                (Line_Bound (seg_start (shiftToMidpoint s E))
                            (seg_end (shiftToMidpoint s E))))).
Proof.
  split.
  - rewrite shiftToMidpoint_unfold. unfold horizontal_vector. simpl.
    repeat split.
  - intros w w' id e curve He Hloc Hends.
    rewrite set_element_elevation_run.
    unfold set_succeeds, doc_after_set, new_line.
    rewrite He, Hloc, Hends. cbn zeta.
    destruct (valid_bound host _ _ && accepts_curve host e _);
      intros [= <-]. simpl.
    now rewrite lookup_insert_eq.
Qed.

(** C4, as the script has it.  The guard of [set_element_elevation] is
    [isinstance(location, LocationCurve)]: on an element whose location
    is not a [LocationCurve] it returns [False] and the world is the one
    it started from; and whenever it returns [False], for whatever
    reason, nothing was written. *)
Theorem set_element_elevation_guard (E : num) (w : World num) :
  (forall id e,
      doc w !! id = Some e ->
      (forall curve, elem_location e <> LocationCurve curve) ->
      set_element_elevation host (Some id) E w = (Return false, w)) /\
  (forall element w',
      set_element_elevation host element E w = (Return false, w') ->
      w' = w).
Proof.
  split.
  - intros id e He Hloc. rewrite set_element_elevation_run.
    unfold set_succeeds, doc_after_set. rewrite He.
    rewrite (new_line_not_LocationCurve e E Hloc).
    now rewrite world_eta.
  - intros element w'. rewrite set_element_elevation_run.
    intros [= Hb <-]. rewrite (set_fails_doc_unchanged _ _ _ Hb).
    apply world_eta.
Qed.

(** C10. Neither helper lets an exception out: each returns a value in
    every world, [get_element_middle_elevation] without touching the
    world; an exception raised in the body is turned into [None]
    (respectively [False]); and a location that is not a [LocationCurve]
    gives [None] (respectively [False]). *)
Theorem helpers_never_raise (element : PyElement) (E : num) (w : World num) :
  (exists r, get_element_middle_elevation element w = (Return r, w)) /\
  (exists b w', set_element_elevation host element E w = (Return b, w')) /\
  (forall ex w',
      get_element_middle_elevation_body element w = (Raise ex, w') ->
      get_element_middle_elevation element w = (Return None, w')) /\
  (forall ex w',
      set_element_elevation_body host element E w = (Raise ex, w') ->
      set_element_elevation host element E w = (Return false, w')) /\
  (forall id e,
      element = Some id -> doc w !! id = Some e ->
      (forall curve, elem_location e <> LocationCurve curve) ->
      get_element_middle_elevation element w = (Return None, w) /\
      set_element_elevation host element E w = (Return false, w)).
Proof.
  split; [|split; [|split; [|split]]].
  - eexists. apply get_element_middle_elevation_run.
  - do 2 eexists. apply set_element_elevation_run.
  - intros ex w' Hbody. unfold get_element_middle_elevation, try_except.
    now rewrite Hbody.
  - intros ex w' Hbody. unfold set_element_elevation, try_except.
    now rewrite Hbody.
  - intros id e -> He Hloc. split.
    + rewrite get_element_middle_elevation_run.
      unfold middle_elevation_of. rewrite He.
      destruct (elem_location e) as [curve| |]; try reflexivity.
      now destruct (Hloc curve).
    + rewrite set_element_elevation_run.
      unfold set_succeeds, doc_after_set. rewrite He.
      rewrite (new_line_not_LocationCurve e E Hloc).
      now rewrite world_eta.
Qed.

End ElevationHelperProperties.

Section ElevationExact.
Context {num : Type} {A : Arith num} {EA : ExactArith num}.
Variable host : Host num.
Import MatchElevation.
Local Open Scope num_scope.

Lemma new_line_Some (e : Element num) (E : num) (line : Curve num) :
  new_line host e E = Some line ->
  exists curve s,
    elem_location e = LocationCurve curve /\
    end_points curve = Some s /\
    line = Line_Bound (seg_start (shiftToMidpoint s E))
                      (seg_end (shiftToMidpoint s E)).
Proof.
  unfold new_line.
  destruct (elem_location e) as [curve| |]; try discriminate.
  destruct (end_points curve) as [s|] eqn:Hends; [|discriminate]. cbn zeta.
  destruct (valid_bound host _ _ && accepts_curve host e _); [|discriminate].
  intros [= <-]. exists curve, s. now repeat split.
Qed.

(** C6, in exact arithmetic: shifting to [E] a segment already shifted
    to [E] gives it back; and a second [set_element_elevation] with the
    same elevation, on an element that a first one has moved, leaves the
    document as it is, whether or not the host accepts its write. *)
Theorem shift_twice_exact (s : Segment num) (E : num) :
  shiftToMidpoint (shiftToMidpoint s E) E = shiftToMidpoint s E /\
  (forall (w w1 w2 : World num) (element : PyElement) (b : bool),
      set_element_elevation host element E w = (Return true, w1) ->
      set_element_elevation host element E w1 = (Return b, w2) ->
      doc w2 = doc w1).
Proof.
  split.
  - apply shiftToMidpoint_twice.
  - intros w w1 w2 element b. rewrite !set_element_elevation_run.
    intros [= Hfirst <-] [= _ <-]. cbn [doc].
    unfold set_succeeds in Hfirst.
    destruct element as [id|]; [|discriminate].
    destruct (doc w !! id) as [e|] eqn:He; [|discriminate].
    destruct (new_line host e E) as [line|] eqn:Hline; [|discriminate].
    destruct (new_line_Some e E line Hline) as (curve & s0 & _ & _ & ->).
    set (s1 := shiftToMidpoint s0 E) in *.
    set (e1 := mkElement (elem_category e)
                 (LocationCurve (Line_Bound (seg_start s1) (seg_end s1)))
                 (elem_dimension e)).
    assert (Hd1 : doc_after_set host E (doc w) (Some id) = <[id := e1]> (doc w))
      by (unfold doc_after_set; now rewrite He, Hline).
    rewrite Hd1. unfold doc_after_set. rewrite lookup_insert_eq.
    destruct (new_line host e1 E) as [line'|] eqn:Hline'; [|reflexivity].
    destruct (new_line_Some e1 E line' Hline')
      as (curve' & s' & Hloc' & Hends' & ->).
    simpl in Hloc'. injection Hloc' as <-.
    unfold end_points in Hends'. simpl in Hends'. injection Hends' as <-.
    change (<[id := mkElement (elem_category e)
                      (LocationCurve
                         (Line_Bound (seg_start (shiftToMidpoint s1 E))
                                     (seg_end (shiftToMidpoint s1 E))))
                      (elem_dimension e)]> (<[id := e1]> (doc w))
            = <[id := e1]> (doc w)).
    unfold s1 at 1 2. rewrite shiftToMidpoint_twice. fold s1. fold e1.
    apply insert_insert_eq.
Qed.

End ElevationExact.

Section ElevationTarget.
Context {num : Type} {A : Arith num}.
Variable host : Host num.
Import MatchElevation.
Local Open Scope num_scope.


End ElevationTarget.


(** The scenario again: moved to elevation 5 twice. *)
Lemma shift_twice_exact_witness :
  doc (snd (MatchElevation.set_element_elevation accepting_host (Some 1%Z)
              (Qc_of_Z 5)
              (snd (MatchElevation.set_element_elevation accepting_host
                      (Some 1%Z) (Qc_of_Z 5) scenario_world))))
  = doc (snd (MatchElevation.set_element_elevation accepting_host (Some 1%Z)
                (Qc_of_Z 5) scenario_world)).
Proof.
  apply (proj2 (shift_twice_exact accepting_host scenario_segment (Qc_of_Z 5))
           scenario_world _ _ (Some 1%Z) true);
    reflexivity.
Defined.

(** The same scenario on the script's own arithmetic: the shift is +3 on
    both ends and the new midpoint elevation is 5. *)
Example scenario_binary64 :
  let s := mkSegment (pt 0 0 0) (pt 10 0 4) in
  computeMidpoint s = 2%float /\
  shiftToMidpoint s 5%float = mkSegment (pt 0 0 3) (pt 10 0 7) /\
  computeMidpoint (shiftToMidpoint s 5%float) = 5%float.
Proof. repeat split. Qed.

(** On binary64 the midpoint elevation after a shift can miss the target
    by a rounding error: with heights 10.1 and 12.3 and elevation 3.7 it
    is 3.7000000000000011, less than [2^-49] away from the target. *)
Example midpoint_binary64_rounding :
  let m := computeMidpoint
             (shiftToMidpoint rounding_segment rounding_elevation) in
  PrimFloat.eqb m rounding_elevation = false /\
  PrimFloat.ltb (PrimFloat.abs (m - rounding_elevation)%float)
                0x1p-49%float = true.
Proof. split; reflexivity. Qed.


(** C6 on binary64: with heights 10.1 and 12.3 and elevation 3.7, the
    first shift gives a start height of 2.6000000000000005 and the second
    shift moves it to 2.5999999999999996. *)
Lemma shift_twice_binary64 :
  shiftToMidpoint (shiftToMidpoint rounding_segment rounding_elevation)
                  rounding_elevation
  <> shiftToMidpoint rounding_segment rounding_elevation.
Proof.
  intros H.
  apply (f_equal (fun s => PrimFloat.eqb (Z_ (seg_start s))
                                         0x1.4ccccccccccccp+1%float)) in H.
  vm_compute in H. discriminate H.
Qed.

(** C4 as stated fails on an arc: the location is a [LocationCurve], the
    arc has end points, and the script writes the straight line between
    the shifted end points. *)
Lemma arc_is_replaced_by_line :
  elem_location arc_element
    = LocationCurve (Arc_Bound (pt 0 0 0) (pt 10 0 0) (pt 5 5 0)) /\
  fst (MatchElevation.set_element_elevation accepting_host (Some 7%Z)
         5%float arc_world) = Return true /\
  elem_location <$>
    doc (snd (MatchElevation.set_element_elevation accepting_host (Some 7%Z)
                5%float arc_world)) !! 7%Z
    = Some (LocationCurve (Line_Bound (pt 0 0 5) (pt 10 0 5))).
Proof. repeat split. Qed.

(* ===================================================================== *)
(** * Picking and looping                                                 *)
(* ===================================================================== *)

Section Picking.
Context {num : Type} {A : Arith num}.
Implicit Types (f : ISelectionFilter num) (d : gmap Z (Element num)).

Lemma pick_scan_length f d gs :
  length (snd (pick_scan f d gs)) <= length gs.
Proof.
  induction gs as [|[id|] gs IH]; simpl; [lia| |lia].
  destruct (d !! id) as [e|]; [|lia].
  destruct (AllowElement f e) as [[|]| |]; simpl; lia.
Qed.

Lemma pick_scan_Return_length f d gs r gs' :
  pick_scan f d gs = (Return r, gs') -> length gs' < length gs.
Proof.
  revert r gs'. induction gs as [|[id|] gs IH]; simpl; intros r gs' H;
    try discriminate H.
  destruct (d !! id) as [e|].
  - destruct (AllowElement f e) as [[|]| |]; try discriminate H.
    + injection H as _ <-. lia.
    + apply IH in H. lia.
  - apply IH in H. lia.
Qed.

(** The host returns only elements of the document that the filter of
    the pick allows. *)
Lemma pick_scan_pickable f d gs r gs' :
  pick_scan f d gs = (Return r, gs') -> pickable f d (ElementId r).
Proof.
  revert r gs'. induction gs as [|[id|] gs IH]; simpl; intros r gs' H;
    try discriminate H.
  destruct (d !! id) as [e|] eqn:He; [|now apply IH in H].
  destruct (AllowElement f e) as [[|]| |] eqn:Hf; try discriminate H.
  - injection H as <- _. now exists e.
  - now apply IH in H.
Qed.

Lemma pick_scan_Click f d id gs :
  pickable f d id ->
  pick_scan f d (Click id :: gs) = (Return (mkReference id), gs).
Proof. intros (e & He & Hf). simpl. now rewrite He, Hf. Qed.

Lemma pick_scan_Esc f d gs :
  pick_scan f d (Esc :: gs) = (Raise OperationCanceledException, gs).
Proof. reflexivity. Qed.

Lemma PickObject_run f (prompt : Prompt num) (w : World num) :
  PickObject f prompt w
  = (fst (pick_scan f (doc w) (gestures w)),
     mkWorld (doc w) (snd (pick_scan f (doc w) (gestures w)))
             (trace w ++ [EvPickObject f prompt]) (open_transaction w)).
Proof.
  unfold PickObject, emit, bind. simpl.
  now destruct (pick_scan f (doc w) (gestures w)).
Qed.

Lemma while_fuel_enough {St} (round : St -> M num (St + St)) :
  productive round ->
  forall fuel1 fuel2 s w,
    length (gestures w) < fuel1 -> length (gestures w) < fuel2 ->
    while_fuel fuel1 round s w = while_fuel fuel2 round s w.
Proof.
  intros Hprod. induction fuel1 as [|fuel1 IH]; intros fuel2 s w H1 H2;
    [lia|].
  destruct fuel2 as [|fuel2]; [lia|].
  simpl. unfold bind. specialize (Hprod s w).
  destruct (round s w) as [[[s'|s']| |] w']; try reflexivity.
  apply IH; lia.
Qed.

(** [while True:] runs a round and, unless it breaks, starts again. *)
Lemma while_True_unroll {St} (round : St -> M num (St + St)) :
  productive round ->
  forall s w,
    while_True round s w =
    match round s w with
    | (Return (inl s'), w') => while_True round s' w'
    | (Return (inr s'), w') => (Return s', w')
    | (Raise e, w') => (Raise e, w')
    | (OutOfFuel, w') => (OutOfFuel, w')
    end.
Proof.
  intros Hprod s w. unfold while_True at 1. simpl. unfold bind.
  pose proof (Hprod s w) as Hs.
  destruct (round s w) as [[[s'|s']| |] w']; try reflexivity.
  unfold while_True. apply (while_fuel_enough round Hprod); lia.
Qed.

End Picking.

Section LoopEvents.
Context {num : Type} {A : Arith num}.

(** Events of a loop: [P] relates the loop's variables before and after
    some rounds that went on with the events of these rounds, [Q] does so
    for the round that breaks. *)
Lemma while_fuel_events {St} (round : St -> M num (St + St))
    (P Q : St -> St -> list (Event num) -> Prop) :
  (forall s, P s s []) ->
  (forall s1 s2 s3 l1 l2, P s1 s2 l1 -> P s2 s3 l2 -> P s1 s3 (l1 ++ l2)) ->
  (forall s w,
      match round s w with
      | (Return (inl s'), w') =>
          length (gestures w') < length (gestures w) /\
          exists l, trace w' = trace w ++ l /\ P s s' l
      | (Return (inr s'), w') =>
          exists l, trace w' = trace w ++ l /\ Q s s' l
      | _ => False
      end) ->
  forall fuel s w,
    length (gestures w) < fuel ->
    exists s1 s' w' l1 l2,
      while_fuel fuel round s w = (Return s', w') /\
      trace w' = trace w ++ l1 ++ l2 /\ P s s1 l1 /\ Q s1 s' l2.
Proof.
  intros Hrefl Htrans Hround.
  induction fuel as [|fuel IH]; intros s w Hfuel; [lia|].
  simpl. unfold bind. specialize (Hround s w).
  destruct (round s w) as [[[s'|s']| |] w']; try contradiction.
  - destruct Hround as (Hlen & l & Hl & HP).
    destruct (IH s' w') as (s1 & s'' & w'' & l1 & l2 & Hrun & Htr & HP1 & HQ);
      [lia|].
    exists s1, s'', w'', (l ++ l1), l2. repeat split; try assumption.
    + rewrite Htr, Hl. now rewrite <- !app_assoc.
    + now apply (Htrans s s' s1).
  - destruct Hround as (l & Hl & HQ).
    exists s, s', w', [], l. repeat split; try assumption. apply Hrefl.
Qed.

End LoopEvents.

Section ElevationLoop.
Context {num : Type} {A : Arith num}.
Variable host : Host num.
Import MatchElevation.
Local Arguments doc_after_set : simpl never.
Local Arguments set_succeeds : simpl never.

Lemma doc_after_set_GetElement (E : num) (d : gmap Z (Element num)) (id : Z) :
  doc_after_set host E d (match d !! id with Some _ => Some id | None => None end)
  = doc_after_set host E d (Some id).
Proof.
  unfold doc_after_set.
  destruct (d !! id) eqn:Hd; simpl; now rewrite ?Hd.
Qed.

Lemma MEPElementFilter_no_OutOfFuel (d : gmap Z (Element num)) gs :
  fst (pick_scan MEPElementFilter d gs) <> OutOfFuel.
Proof.
  induction gs as [|[id|] gs IH]; simpl; try discriminate.
  destruct (d !! id) as [e|]; [|assumption].
  unfold MEPElementFilter_AllowElement.
  destruct (elem_category e) as [v|]; [|discriminate].
  destruct (AllowElement_loop v categories); [discriminate|assumption].
Qed.

Lemma target_round_run (src disp : num) (c : nat) (w : World num) :
  target_round host src disp c w =
  match pick_scan MEPElementFilter (doc w) (gestures w) with
  | (Return r, gs') =>
      (Return (inl (S c)),
       mkWorld (doc_after_set host src (doc w) (Some (ElementId r))) gs'
               (trace w ++ target_events disp) None)
  | (_, gs') =>
      (Return (inr c),
       mkWorld (doc w) gs'
               (trace w ++ [EvPickObject MEPElementFilter
                              (ClickElementsToMatch disp)])
               (open_transaction w))
  end.
Proof.
  unfold target_round, try_except, bind. rewrite PickObject_run.
  pose proof (MEPElementFilter_no_OutOfFuel (doc w) (gestures w)) as Hfuel.
  destruct (pick_scan MEPElementFilter (doc w) (gestures w))
    as [[r| |] gs'] eqn:Hpick; simpl.
  - unfold GetElement. simpl.
    unfold with_revit_Transaction, Start, try_except, bind.
    rewrite <- (doc_after_set_GetElement src (doc w) (ElementId r)).
    destruct (doc w !! ElementId r) as [e|] eqn:He;
      rewrite set_element_elevation_run; simpl;
      unfold target_events; rewrite <- !app_assoc; reflexivity.
  - reflexivity.
  - now destruct Hfuel.
Qed.

Lemma target_round_productive (src disp : num) :
  productive (target_round host src disp).
Proof.
  intros c w. rewrite target_round_run.
  destruct (pick_scan MEPElementFilter (doc w) (gestures w))
    as [[r| |] gs'] eqn:Hpick; try exact I.
  simpl. now apply pick_scan_Return_length in Hpick.
Qed.

End ElevationLoop.

Section ElevationSession.
Context {num : Type} {A : Arith num}.
Variable host : Host num.
Import MatchElevation.
Local Arguments doc_after_set : simpl never.
Local Arguments set_succeeds : simpl never.


Lemma target_loop_unroll (src disp : num) (c : nat) (w : World num) :
  while_True (target_round host src disp) c w =
  match pick_scan MEPElementFilter (doc w) (gestures w) with
  | (Return r, gs') =>
      while_True (target_round host src disp) (S c)
        (mkWorld (doc_after_set host src (doc w) (Some (ElementId r))) gs'
                 (trace w ++ target_events disp) None)
  | (_, gs') =>
      (Return c,
       mkWorld (doc w) gs'
               (trace w ++ [EvPickObject MEPElementFilter
                              (ClickElementsToMatch disp)])
               (open_transaction w))
  end.
Proof.
  rewrite (while_True_unroll _ (target_round_productive host src disp)).
  rewrite target_round_run.
  now destruct (pick_scan MEPElementFilter (doc w) (gestures w))
    as [[r| |] gs'].
Qed.

Lemma alerts_app (l1 l2 : list (Event num)) :
  alerts (l1 ++ l2) = alerts l1 ++ alerts l2.
Proof. apply omap_app. Qed.

Lemma pick_requests_app (l1 l2 : list (Event num)) :
  pick_requests (l1 ++ l2) = pick_requests l1 ++ pick_requests l2.
Proof. apply omap_app. Qed.

Lemma commits_app (l1 l2 : list (Event num)) :
  commits (l1 ++ l2) = commits l1 + commits l2.
Proof. unfold commits. now rewrite omap_app, length_app. Qed.

Lemma picks_under_app f (l1 l2 : list (Event num)) :
  picks_under f l1 -> picks_under f l2 -> picks_under f (l1 ++ l2).
Proof.
  unfold picks_under. rewrite pick_requests_app. apply Forall_app_2.
Qed.

(** The loop of the elevation tool ends, with a counter that is the
    number of its commits, without an alert, all picks under the MEP
    filter. *)
Lemma target_loop_events (src disp : num) (w : World num) :
  exists c w' l,
    target_loop host src disp w = (Return c, w') /\
    trace w' = trace w ++ l /\
    alerts l = [] /\ c = commits l /\ picks_under MEPElementFilter l.
Proof.
  destruct (while_fuel_events (target_round host src disp)
              (fun c c' l => alerts l = [] /\ c' = (c + commits l)%nat /\
                             picks_under MEPElementFilter l)
              (fun c c' l => alerts l = [] /\ c' = (c + commits l)%nat /\
                             picks_under MEPElementFilter l))
    with (fuel := S (length (gestures w))) (s := 0%nat) (w := w)
    as (c1 & c' & w' & l1 & l2 & Hrun & Htr & (Ha1 & Hc1 & Hp1) & (Ha2 & Hc2 & Hp2)).
  - intros c. split; [reflexivity|].
    split; [unfold commits; simpl; lia|constructor].
  - intros c1 c2 c3 l1 l2 (Ha1 & Hc1 & Hp1) (Ha2 & Hc2 & Hp2).
    repeat split.
    + now rewrite alerts_app, Ha1, Ha2.
    + rewrite commits_app. lia.
    + now apply picks_under_app.
  - intros c w0. rewrite target_round_run.
    destruct (pick_scan MEPElementFilter (doc w0) (gestures w0))
      as [[r| |] gs'] eqn:Hpick; simpl.
    + split; [now apply pick_scan_Return_length in Hpick|].
      eexists; split; [reflexivity|].
      split; [reflexivity|].
      split; [unfold commits; simpl; lia|repeat constructor].
    + eexists; split; [reflexivity|].
      split; [reflexivity|].
      split; [unfold commits; simpl; lia|repeat constructor].
    + destruct (MEPElementFilter_no_OutOfFuel (doc w0) (gestures w0)).
      now rewrite Hpick.
  - lia.
  - exists c', w', (l1 ++ l2). repeat split.
    + exact Hrun.
    + exact Htr.
    + now rewrite alerts_app, Ha1, Ha2.
    + rewrite commits_app. lia.
    + now apply picks_under_app.
Qed.

End ElevationSession.

Section ElevationClaims.
Context {num : Type} {A : Arith num}.
Variable host : Host num.
Import MatchElevation.
Local Arguments doc_after_set : simpl never.
Local Arguments set_succeeds : simpl never.
Local Arguments middle_elevation_of : simpl never.

Lemma AllowElement_loop_true (v : Z) (cats : list BuiltInCategory) :
  AllowElement_loop v cats = true <-> exists cat, In cat cats /\ v = int cat.
Proof.
  induction cats as [|cat cats IH]; simpl.
  - split; [discriminate|]. now intros (cat & [] & _).
  - destruct (Z.eqb_spec v (int cat)) as [Heq|Hne].
    + split; [|reflexivity]. intros _. exists cat. now split; [left|].
    + rewrite IH. split.
      * intros (cat' & Hin & Hv). exists cat'. now split; [right|].
      * intros (cat' & [<-|Hin] & Hv); [contradiction|]. now exists cat'.
Qed.

Local Arguments AllowElement_loop : simpl never.

Lemma pickable_MEP (d : gmap Z (Element num)) (id : Z) :
  pickable MEPElementFilter d id <->
  exists v, elem_category <$> d !! id = Some (Some v) /\
            AllowElement_loop v categories = true.
Proof.
  unfold pickable. simpl. unfold MEPElementFilter_AllowElement. split.
  - intros (e & He & Hallow). rewrite He. simpl.
    destruct (elem_category e) as [v|]; [|discriminate].
    exists v. split; [reflexivity|]. now injection Hallow.
  - intros (v & Hcat & Hloop).
    destruct (d !! id) as [e|]; [|discriminate]. simpl in Hcat.
    exists e. split; [reflexivity|].
    injection Hcat as ->. now rewrite Hloop.
Qed.

Lemma doc_after_set_category (E : num) (d : gmap Z (Element num))
    (element : PyElement) (id : Z) :
  elem_category <$> doc_after_set host E d element !! id
  = elem_category <$> d !! id.
Proof.
  unfold doc_after_set.
  destruct element as [id'|]; [|reflexivity].
  destruct (d !! id') as [e|] eqn:He; [|reflexivity].
  destruct (new_line host e E) as [line|]; [|reflexivity].
  destruct (decide (id' = id)) as [->|Hne].
  - now rewrite lookup_insert_eq, He.
  - now rewrite lookup_insert_ne.
Qed.

Lemma pickable_doc_after_set (E : num) (d : gmap Z (Element num))
    (element : PyElement) (id : Z) :
  pickable MEPElementFilter d id ->
  pickable MEPElementFilter (doc_after_set host E d element) id.
Proof. rewrite !pickable_MEP. now rewrite doc_after_set_category. Qed.

(** The loop on a script of clicks on pickable elements, then Esc. *)
Lemma target_loop_clicks (src disp : num) (ids : list Z) :
  forall (c : nat) (w : World num) (rest : list gesture),
    gestures w = map Click ids ++ Esc :: rest ->
    Forall (pickable MEPElementFilter (doc w)) ids ->
    exists w',
      while_True (target_round host src disp) c w
        = (Return (c + length ids)%nat, w') /\
      doc w' = foldl (fun d id => doc_after_set host src d (Some id))
                     (doc w) ids /\
      gestures w' = rest.
Proof.
  induction ids as [|id ids IH]; intros c w rest Hgs Hpick;
    rewrite target_loop_unroll, Hgs; simpl.
  - replace (c + 0)%nat with c by lia.
    eexists. split; [reflexivity|]. now split.
  - apply Forall_cons in Hpick as [Hid Hids].
    destruct Hid as (e & He & Hallow). rewrite He.
    simpl in Hallow. rewrite Hallow.
    replace (c + S (length ids))%nat with (S c + length ids)%nat by lia.
    apply IH; [reflexivity|].
    simpl. eapply Forall_impl; [exact Hids|].
    intros id'. apply pickable_doc_after_set.
Qed.

(** The session of the elevation tool: it ends without an exception; its
    picks are all under the MEP filter; its only alert is the one for a
    source whose elevation cannot be read. *)
Lemma main_events (w : World num) :
  exists w' l,
    main host w = (Return tt, w') /\
    trace w' = trace w ++ l /\
    picks_under MEPElementFilter l /\
    (alerts l = [] \/ alerts l = [CouldNotGetElevation]).
Proof.
  unfold main, try_except, bind. rewrite PickObject_run.
  destruct (pick_scan MEPElementFilter (doc w) (gestures w))
    as [[r| |] gs'] eqn:Hpick; simpl.
  - destruct (pick_scan_pickable _ _ _ _ _ Hpick) as (e & He & _).
    unfold GetElement. simpl. rewrite He.
    rewrite get_element_middle_elevation_run. simpl.
    destruct (middle_elevation_of (doc w) (Some (ElementId r))) as [E|].
    + match goal with
      | |- context [target_loop host ?s ?d ?w1] =>
          destruct (target_loop_events host s d w1)
            as (c & w' & l & -> & Htr & Ha & _ & Hp)
      end.
      simpl in Htr. rewrite <- app_assoc in Htr.
      do 2 eexists. split; [reflexivity|]. split; [exact Htr|].
      split; [|left; exact Ha].
      apply (picks_under_app _ [_]); [repeat constructor|exact Hp].
    + unfold alert, emit. simpl. do 2 eexists.
      split; [reflexivity|]. simpl. rewrite <- app_assoc.
      split; [reflexivity|]. split; [repeat constructor|now right].
  - do 2 eexists. split; [reflexivity|]. split; [reflexivity|].
    split; [repeat constructor|now left].
  - destruct (MEPElementFilter_no_OutOfFuel (doc w) (gestures w)).
    now rewrite Hpick.
Qed.

(** C8. [MEPElementFilter.AllowElement] returns [True] exactly for the
    elements whose category is one of the six of its list: pipes, ducts,
    cable trays, conduits, flex ducts, flex pipes.  It is a function of
    the element alone.  [AllowReference] always returns [False].  Every
    pick of a session, the source pick and each target pick, is made
    under this filter, and a pick only returns an element of the
    document that the filter allows. *)
Theorem MEPElementFilter_gates_every_pick :
  (forall e : Element num,
      AllowElement MEPElementFilter e = Return true <->
      exists cat,
        elem_category e = Some (int cat) /\
        (cat = OST_PipeCurves \/ cat = OST_DuctCurves \/
         cat = OST_CableTray \/ cat = OST_Conduit \/
         cat = OST_FlexDuctCurves \/ cat = OST_FlexPipeCurves)) /\
  (forall (reference : Reference) (position : XYZ num),
      AllowReference MEPElementFilter reference position = false) /\
  (forall w : World num,
      exists w' l,
        main host w = (Return tt, w') /\
        trace w' = trace w ++ l /\
        picks_under MEPElementFilter l) /\
  (forall (d : gmap Z (Element num)) gs r gs',
      pick_scan MEPElementFilter d gs = (Return r, gs') ->
      exists e,
        d !! ElementId r = Some e /\
        AllowElement MEPElementFilter e = Return true).
Proof.
  split; [|split; [|split]].
  - intros e. simpl. unfold MEPElementFilter_AllowElement.
    destruct (elem_category e) as [v|].
    + split.
      * intros [= Hloop]. apply AllowElement_loop_true in Hloop
          as (cat & Hin & ->).
        exists cat. split; [reflexivity|].
        simpl in Hin. intuition (subst; auto).
      * intros (cat & [= ->] & Hcat). f_equal.
        apply AllowElement_loop_true. exists cat. split; [|reflexivity].
        simpl. intuition (subst; auto).
    + split; [discriminate|]. now intros (cat & Hcat & _).
  - reflexivity.
  - intros w. destruct (main_events w) as (w' & l & Hrun & Htr & Hp & _).
    now exists w', l.
  - intros d gs r gs' Hpick. exact (pick_scan_pickable _ _ _ _ _ Hpick).
Qed.

(** C9. In a round of the loop in which an element is picked, the
    counter goes from [c] to [c + 1] and the round goes on, whatever
    [set_element_elevation] returns; when it returns [False] the document
    is as before.  So on a script of clicks on pickable elements ended by
    Esc the counter ends at the number of clicks, whichever of them
    changed an element. *)
Theorem counter_counts_picks (src disp : num) :
  (forall c w r gs',
      pick_scan MEPElementFilter (doc w) (gestures w) = (Return r, gs') ->
      target_round host src disp c w
      = (Return (inl (S c)),
         mkWorld (doc_after_set host src (doc w) (Some (ElementId r))) gs'
                 (trace w ++ target_events disp) None)) /\
  (forall element w w',
      set_element_elevation host element src w = (Return false, w') ->
      doc_after_set host src (doc w) element = doc w) /\
  (forall ids w rest,
      gestures w = map Click ids ++ Esc :: rest ->
      Forall (pickable MEPElementFilter (doc w)) ids ->
      exists w',
        target_loop host src disp w = (Return (length ids), w') /\
        doc w' = foldl (fun d id => doc_after_set host src d (Some id))
                       (doc w) ids /\
        gestures w' = rest).
Proof.
  split; [|split].
  - intros c w r gs' Hpick. now rewrite target_round_run, Hpick.
  - intros element w w'. rewrite set_element_elevation_run.
    intros [= Hb _]. now apply set_fails_doc_unchanged.
  - intros ids w rest Hgs Hpick.
    apply (target_loop_clicks src disp ids 0%nat w rest Hgs Hpick).
Qed.

End ElevationClaims.

Lemma MEPElementFilter_gates_every_pick_witness :
  exists e,
    three_targets !! 2%Z = Some e /\
    AllowElement MatchElevation.MEPElementFilter e = Return true.
Proof.
  apply (proj2 (proj2 (proj2
           (MEPElementFilter_gates_every_pick accepting_host)))
           three_targets [Click 9%Z; Click 2%Z; Esc] (mkReference 2) [Esc]).
  reflexivity.
Defined.

(** One target, which [set_element_elevation] cannot move: the counter
    ends at 1 and the document is the one the loop started with. *)
Lemma counter_counts_picks_witness :
  exists w',
    MatchElevation.target_loop accepting_host 5%float 1524%float point_world
      = (Return (length [2%Z]), w') /\
    doc w' = foldl (fun d id => doc_after_set accepting_host 5%float d (Some id))
                   (doc point_world) [2%Z] /\
    gestures w' = [].
Proof.
  apply (proj2 (proj2 (counter_counts_picks accepting_host 5%float 1524%float))
           [2%Z] point_world []).
  - reflexivity.
  - repeat constructor. exists point_element. split; reflexivity.
Defined.

Example counter_exceeds_modified_elements :
  fst (MatchElevation.target_loop accepting_host 5%float 1524%float point_world)
    = Return 1%nat /\
  doc (snd (MatchElevation.target_loop accepting_host 5%float 1524%float
              point_world))
    = doc point_world.
Proof. split; reflexivity. Qed.

(* ===================================================================== *)
(** * The dimension tool                                                  *)
(* ===================================================================== *)

Section DimensionLoop.
Context {num : Type} {A : Arith num}.
Variable host : Host num.
Import CopieDimText.
Local Arguments write_text : simpl never.

Lemma set_text_run update (id : Z) (v : option string) (w : World num)
    (e : Element num) :
  doc w !! id = Some e ->
  set_text host update (Some id) v w =
  match write_text host update v e with
  | inl e' =>
      (Return tt,
       mkWorld (<[id := e']> (doc w)) (gestures w) (trace w)
               (open_transaction w))
  | inr ex => (Raise ex, w)
  end.
Proof.
  intros He. unfold set_text, write_text, deref, store, set_doc, raise, bind.
  rewrite He. destruct (elem_dimension e) as [t|]; [|reflexivity].
  now destruct (accepts_text host e).
Qed.

Lemma write_text_error update v (e : Element num) ex :
  write_text host update v e = inr ex ->
  ex = HostException \/ ex = AttributeError.
Proof.
  unfold write_text. destruct (elem_dimension e); [|intros [= <-]; now right].
  destruct (accepts_text host e); [discriminate|intros [= <-]; now left].
Qed.

Lemma paste_error a b p s (e : Element num) ex :
  paste host a b p s e = inr ex ->
  ex = HostException \/ ex = AttributeError.
Proof.
  unfold paste.
  destruct (write_text host update_Above a e) as [e1|ex1] eqn:H1;
    [|intros [= <-]; eapply write_text_error; eassumption].
  destruct (write_text host update_Below b e1) as [e2|ex2] eqn:H2;
    [|intros [= <-]; eapply write_text_error; eassumption].
  destruct (write_text host update_Prefix p e2) as [e3|ex3] eqn:H3;
    [|intros [= <-]; eapply write_text_error; eassumption].
  apply write_text_error.
Qed.

Lemma DimensionSelectionFilter_pick (d : gmap Z (Element num)) gs :
  (exists r, fst (pick_scan DimensionSelectionFilter d gs) = Return r) \/
  fst (pick_scan DimensionSelectionFilter d gs)
    = Raise OperationCanceledException.
Proof.
  induction gs as [|[id|] gs IH]; simpl; try (now right).
  destruct (d !! id) as [e|]; [|assumption].
  unfold DimensionSelectionFilter_AllowElement.
  destruct (elem_dimension e); [left; now eexists|assumption].
Qed.

Lemma paste_round_picked a b p s (c : nat) (w : World num) r gs' e :
  pick_scan DimensionSelectionFilter (doc w) (gestures w) = (Return r, gs') ->
  doc w !! ElementId r = Some e ->
  paste_round host a b p s c w =
  match paste host a b p s e with
  | inl e' =>
      (Return (inl (S c)),
       mkWorld (<[ElementId r := e']> (doc w)) gs'
               (trace w ++ paste_events) None)
  | inr ex =>
      (Return (inr c),
       mkWorld (doc w) gs' (trace w ++ failure_events ex) None)
  end.
Proof.
  intros Hpick He.
  pose proof (paste_error a b p s e) as Herr.
  unfold paste_round, try_except, bind at 1. rewrite PickObject_run, Hpick.
  cbn [fst snd].
  unfold with_DB_Transaction, try_except, bind, Start, GetElement,
    set_Above, set_Below, set_Prefix, set_Suffix.
  cbn [doc gestures trace open_transaction]. rewrite He.
  unfold paste in *.
  erewrite set_text_run by (cbn; exact He).
  destruct (write_text host update_Above a e) as [e1|ex1].
  2:{ cbn. destruct (Herr ex1 eq_refl) as [-> | ->]; cbn;
      unfold failure_events; now rewrite <- !app_assoc. }
  erewrite set_text_run by (cbn; apply lookup_insert_eq).
  destruct (write_text host update_Below b e1) as [e2|ex2].
  2:{ cbn. destruct (Herr ex2 eq_refl) as [-> | ->]; cbn;
      unfold failure_events; now rewrite <- !app_assoc. }
  erewrite set_text_run by (cbn; apply lookup_insert_eq).
  destruct (write_text host update_Prefix p e2) as [e3|ex3].
  2:{ cbn. destruct (Herr ex3 eq_refl) as [-> | ->]; cbn;
      unfold failure_events; now rewrite <- !app_assoc. }
  erewrite set_text_run by (cbn; apply lookup_insert_eq).
  destruct (write_text host update_Suffix s e3) as [e4|ex4].
  2:{ cbn. destruct (Herr ex4 eq_refl) as [-> | ->]; cbn;
      unfold failure_events; now rewrite <- !app_assoc. }
  cbn. rewrite !insert_insert_eq. unfold paste_events.
  now rewrite <- !app_assoc.
Qed.

End DimensionLoop.

Section DimensionSession.
Context {num : Type} {A : Arith num}.
Variable host : Host num.
Import CopieDimText.
Local Arguments paste : simpl never.

Lemma paste_round_cancelled a b p s (c : nat) (w : World num) ex gs' :
  pick_scan DimensionSelectionFilter (doc w) (gestures w) = (Raise ex, gs') ->
  paste_round host a b p s c w =
  (Return (inr c),
   mkWorld (doc w) gs'
           (trace w ++ [EvPickObject DimensionSelectionFilter
                          SelectTargetDimension])
           (open_transaction w)).
Proof.
  intros Hpick.
  destruct (DimensionSelectionFilter_pick (doc w) (gestures w))
    as [[r Hr]|Hr]; rewrite Hpick in Hr; simpl in Hr; [discriminate|].
  injection Hr as ->.
  unfold paste_round, try_except, bind at 1. rewrite PickObject_run, Hpick.
  reflexivity.
Qed.

Lemma DimensionSelectionFilter_no_OutOfFuel (d : gmap Z (Element num)) gs :
  fst (pick_scan DimensionSelectionFilter d gs) <> OutOfFuel.
Proof.
  destruct (DimensionSelectionFilter_pick d gs) as [[r ->]| ->]; discriminate.
Qed.

(** Every outcome of a round of the dimension tool's loop. *)
Lemma paste_round_cases a b p s (c : nat) (w : World num) :
  (exists r e e',
      doc w !! ElementId r = Some e /\ paste host a b p s e = inl e' /\
      paste_round host a b p s c w =
      (Return (inl (S c)),
       mkWorld (<[ElementId r := e']> (doc w))
               (snd (pick_scan DimensionSelectionFilter (doc w) (gestures w)))
               (trace w ++ paste_events) None) /\
      length (snd (pick_scan DimensionSelectionFilter (doc w) (gestures w)))
        < length (gestures w)) \/
  (exists ex,
      paste_round host a b p s c w =
      (Return (inr c),
       mkWorld (doc w)
               (snd (pick_scan DimensionSelectionFilter (doc w) (gestures w)))
               (trace w ++ failure_events ex) None)) \/
  paste_round host a b p s c w =
  (Return (inr c),
   mkWorld (doc w)
           (snd (pick_scan DimensionSelectionFilter (doc w) (gestures w)))
           (trace w ++ [EvPickObject DimensionSelectionFilter
                          SelectTargetDimension])
           (open_transaction w)).
Proof.
  pose proof (DimensionSelectionFilter_no_OutOfFuel (doc w) (gestures w))
    as Hfuel.
  destruct (pick_scan DimensionSelectionFilter (doc w) (gestures w))
    as [[r|ex|] gs'] eqn:Hpick; simpl in *.
  - destruct (pick_scan_pickable _ _ _ _ _ Hpick) as (e & He & _).
    rewrite (paste_round_picked host a b p s c w r gs' e Hpick He).
    destruct (paste host a b p s e) as [e'|ex] eqn:Hpaste.
    + left. exists r, e, e'. repeat split; try assumption.
      now apply pick_scan_Return_length in Hpick.
    + right; left. now exists ex.
  - right; right. now apply paste_round_cancelled with (ex := ex).
  - now destruct Hfuel.
Qed.

Lemma paste_round_productive a b p s :
  productive (paste_round host a b p s).
Proof.
  intros c w.
  destruct (paste_round_cases a b p s c w)
    as [(r & e & e' & _ & _ & -> & Hlen)|[(ex & ->)| ->]]; simpl; auto.
Qed.

(** The loop of the dimension tool ends; its counter is the number of
    its commits; it starts with a pick of a target; all its picks are
    under the dimension filter; and its only alert, if any, is the error
    that ended it. *)
Lemma paste_loop_events a b p s (w : World num) :
  exists c w' l,
    while_True (paste_round host a b p s) 0%nat w = (Return c, w') /\
    trace w' = trace w
               ++ EvPickObject DimensionSelectionFilter SelectTargetDimension
               :: l /\
    c = commits l /\ picks_under DimensionSelectionFilter l /\
    (alerts l = [] \/ exists ex, alerts l = [ErrorDuringSelection ex]).
Proof.
  set (pick := EvPickObject DimensionSelectionFilter
                 (@SelectTargetDimension num)).
  destruct (while_fuel_events (paste_round host a b p s)
              (fun c c' l => alerts l = [] /\ c' = (c + commits l)%nat /\
                             picks_under DimensionSelectionFilter l /\
                             (l = [] \/ exists l', l = pick :: l'))
              (fun c c' l => (alerts l = [] \/
                              exists ex, alerts l = [ErrorDuringSelection ex]) /\
                             c' = (c + commits l)%nat /\
                             picks_under DimensionSelectionFilter l /\
                             exists l', l = pick :: l'))
    with (fuel := S (length (gestures w))) (s := 0%nat) (w := w)
    as (c1 & c' & w' & l1 & l2 & Hrun & Htr &
        (Ha1 & Hc1 & Hp1 & Hs1) & (Ha2 & Hc2 & Hp2 & (l2' & Hs2))).
  - intros c. split; [reflexivity|].
    split; [unfold commits; simpl; lia|]. split; [constructor|now left].
  - intros c1 c2 c3 l1 l2 (Ha1 & Hc1 & Hp1 & Hs1) (Ha2 & Hc2 & Hp2 & Hs2).
    split; [now rewrite alerts_app, Ha1, Ha2|].
    split; [rewrite commits_app; lia|].
    split; [now apply picks_under_app|].
    destruct Hs1 as [->|(l' & ->)]; [exact Hs2|].
    right. now exists (l' ++ l2).
  - intros c w0.
    destruct (paste_round_cases a b p s c w0)
      as [(r & e & e' & _ & _ & -> & Hlen)|[(ex & ->)| ->]]; simpl.
    + split; [exact Hlen|]. eexists; split; [reflexivity|].
      split; [reflexivity|]. split; [unfold commits; simpl; lia|].
      split; [repeat constructor|right; now eexists].
    + eexists; split; [reflexivity|].
      split; [right; now exists ex|]. split; [unfold commits; simpl; lia|].
      split; [repeat constructor|now eexists].
    + eexists; split; [reflexivity|].
      split; [now left|]. split; [unfold commits; simpl; lia|].
      split; [repeat constructor|now eexists].
  - lia.
  - assert (Hl : exists l, l1 ++ l2 = pick :: l).
    { subst l2. destruct Hs1 as [->|(l' & ->)]; simpl; now eexists. }
    destruct Hl as (l & Hl).
    assert (Hal : alerts (l1 ++ l2) = alerts l)
      by (now rewrite Hl).
    assert (Hcl : commits (l1 ++ l2) = commits l)
      by (now rewrite Hl).
    assert (Hpl : picks_under DimensionSelectionFilter l).
    { pose proof (picks_under_app _ _ _ Hp1 Hp2) as Hp.
      rewrite Hl in Hp. unfold picks_under in *. simpl in Hp.
      now apply Forall_cons in Hp as [_ Hp]. }
    exists c', w', l. split; [exact Hrun|].
    split; [now rewrite Htr, Hl|].
    split; [rewrite <- Hcl, commits_app; lia|].
    split; [exact Hpl|].
    rewrite <- Hal, alerts_app, Ha1. exact Ha2.
Qed.

Lemma get_text_run (field : DimensionText -> option string) (id : Z)
    (w : World num) e t :
  doc w !! id = Some e -> elem_dimension e = Some t ->
  get_text field (Some id) w = (Return (field t), w).
Proof.
  intros He Ht. unfold get_text, deref, bind. now rewrite He, Ht.
Qed.

(** The session of the dimension tool from a picked source dimension. *)
Lemma main_picked (w : World num) r gs' e t :
  pick_scan DimensionSelectionFilter (doc w) (gestures w) = (Return r, gs') ->
  doc w !! ElementId r = Some e ->
  elem_dimension e = Some t ->
  let w1 := mkWorld (doc w) gs'
              (trace w ++ [EvPickObject DimensionSelectionFilter
                             SelectSourceDimension])
              (open_transaction w) in
  main host w =
  if no_text (Above t) (Below t) (Prefix t) (Suffix t) then
    alert NoTextFound w1
  else
    (updated_count <-
       while_True (paste_round host (Above t) (Below t) (Prefix t) (Suffix t))
                  0%nat ;;
     alert (summary updated_count)) w1.
Proof.
  intros Hpick He Ht w1.
  unfold main, try_except, bind at 1. rewrite PickObject_run, Hpick.
  cbn [fst snd]. fold w1.
  assert (He1 : doc w1 !! ElementId r = Some e) by exact He.
  unfold bind at 1, GetElement. rewrite He1.
  do 4 (unfold bind at 1; rewrite (get_text_run _ _ _ e t He1 Ht)).
  destruct (no_text (Above t) (Below t) (Prefix t) (Suffix t)).
  - reflexivity.
  - destruct (paste_loop_events (Above t) (Below t) (Prefix t) (Suffix t) w1)
      as (c & w' & l & Hrun & _).
    unfold bind. rewrite Hrun. unfold summary.
    now destruct (0 <? c)%nat.
Qed.

End DimensionSession.

(* ===================================================================== *)
(** * Sessions                                                            *)
(* ===================================================================== *)

Section Sessions.
Context {num : Type} {A : Arith num}.
Variable host : Host num.
Local Arguments paste : simpl never.
Local Arguments doc_after_set : simpl never.

Lemma truthy_false (text : option string) :
  CopieDimText.truthy text = false <-> absent_or_empty text.
Proof.
  unfold absent_or_empty. destruct text as [[|a s]|]; simpl.
  - split; [now right|reflexivity].
  - split; [discriminate|]. now intros [H|H].
  - split; [now left|reflexivity].
Qed.

Lemma no_text_true (a b p s : option string) :
  CopieDimText.no_text a b p s = true <->
  absent_or_empty a /\ absent_or_empty b /\
  absent_or_empty p /\ absent_or_empty s.
Proof.
  unfold CopieDimText.no_text. rewrite !andb_true_iff, !negb_true_iff.
  rewrite !truthy_false. tauto.
Qed.

(** C5. For a session whose source pick returned a dimension with text
    fields [t]: the script's test "no text" holds exactly when the four
    fields are each absent or empty; then the session ends after the
    alert "No Text Found", with the source pick as its only pick, the
    document untouched and no further gesture consumed; otherwise the
    next event after the source pick is the pick of a target, and "No
    Text Found" is not alerted. *)
Theorem no_text_ends_before_targets (w : World num) r gs' e t :
  pick_scan CopieDimText.DimensionSelectionFilter (doc w) (gestures w)
    = (Return r, gs') ->
  doc w !! ElementId r = Some e ->
  elem_dimension e = Some t ->
  let source_pick :=
    EvPickObject CopieDimText.DimensionSelectionFilter
                 (@SelectSourceDimension num) in
  let target_pick :=
    EvPickObject CopieDimText.DimensionSelectionFilter
                 (@SelectTargetDimension num) in
  let empty :=
    CopieDimText.no_text (Above t) (Below t) (Prefix t) (Suffix t) in
  (empty = true <->
   absent_or_empty (Above t) /\ absent_or_empty (Below t) /\
   absent_or_empty (Prefix t) /\ absent_or_empty (Suffix t)) /\
  (empty = true ->
   CopieDimText.main host w =
   (Return tt,
    mkWorld (doc w) gs' (trace w ++ [source_pick; EvAlert NoTextFound])
            (open_transaction w))) /\
  (empty = false ->
   exists w' l,
     CopieDimText.main host w = (Return tt, w') /\
     trace w' = trace w ++ source_pick :: target_pick :: l /\
     ~ In NoTextFound (alerts l)).
Proof.
  intros Hpick He Ht source_pick target_pick empty.
  split; [apply no_text_true|].
  rewrite (main_picked host w r gs' e t Hpick He Ht). fold empty.
  split; intros ->.
  - unfold alert, emit. simpl. now rewrite <- app_assoc.
  - match goal with
    | |- context [bind _ _ ?w1] =>
        destruct (paste_loop_events host (Above t) (Below t) (Prefix t)
                    (Suffix t) w1)
          as (c & w' & l & Hrun & Htr & _ & _ & Hal)
    end.
    unfold bind. rewrite Hrun. unfold alert, emit.
    eexists. exists (l ++ [EvAlert (summary c)]). split; [reflexivity|].
    clear Hrun. simpl in Htr |- *. rewrite Htr.
    rewrite <- !app_assoc. simpl. split.
    + reflexivity.
    + rewrite alerts_app. intros Hin. apply in_app_or in Hin.
      destruct Hin as [Hin|Hin].
      * destruct Hal as [Hal|(ex & Hal)]; rewrite Hal in Hin;
          simpl in Hin; intuition discriminate.
      * unfold summary in Hin. destruct (0 <? c)%nat; simpl in Hin;
          intuition discriminate.
Qed.

(** C7, as the scripts have it.  A session of the dimension tool that
    reaches its loop ends with one alert after the loop, its last event,
    which reports the number of updated dimensions, or that none was
    updated; that number is the number of committed transactions; the
    only alert of the loop is the error that ended it, if one did.  A
    session of the elevation tool has no alert but the one for a source
    whose elevation cannot be read. *)
Theorem session_alerts :
  (forall (w : World num) r gs' e t,
      pick_scan CopieDimText.DimensionSelectionFilter (doc w) (gestures w)
        = (Return r, gs') ->
      doc w !! ElementId r = Some e ->
      elem_dimension e = Some t ->
      CopieDimText.no_text (Above t) (Below t) (Prefix t) (Suffix t) = false ->
      exists c w' l,
        CopieDimText.main host w = (Return tt, w') /\
        trace w' =
          trace w
          ++ EvPickObject CopieDimText.DimensionSelectionFilter
               SelectSourceDimension
          :: EvPickObject CopieDimText.DimensionSelectionFilter
               SelectTargetDimension
          :: l ++ [EvAlert (summary c)] /\
        c = commits l /\
        (alerts l = [] \/ exists ex, alerts l = [ErrorDuringSelection ex])) /\
  (forall w : World num,
      exists w' l,
        MatchElevation.main host w = (Return tt, w') /\
        trace w' = trace w ++ l /\
        (alerts l = [] \/ alerts l = [CouldNotGetElevation])).
Proof.
  split.
  - intros w r gs' e t Hpick He Ht Hempty.
    rewrite (main_picked host w r gs' e t Hpick He Ht), Hempty.
    match goal with
    | |- context [bind _ _ ?w1] =>
        destruct (paste_loop_events host (Above t) (Below t) (Prefix t)
                    (Suffix t) w1)
          as (c & w' & l & Hrun & Htr & Hc & _ & Hal)
    end.
    unfold bind. rewrite Hrun. unfold alert, emit.
    exists c. eexists. exists l. split; [reflexivity|].
    clear Hrun. simpl in Htr |- *.
    rewrite Htr, <- !app_assoc. simpl. now split.
  - intros w. destruct (main_events host w) as (w' & l & Hrun & Htr & _ & Hal).
    now exists w', l.
Qed.

(** C3, as the scripts have it.  In the elevation tool a target on which
    [set_element_elevation] returns [False] does not end the loop: the
    loop goes on as after any other target, with the counter increased,
    the document as it was and nothing recorded about the failure.  In
    the dimension tool a target on which a write raises ends the loop:
    the transaction is rolled back, the error is alerted, the counter
    stays and the gestures that follow are not consumed. *)
Theorem failed_target_in_each_tool :
  (forall src disp c (w : World num) r gs',
      pick_scan MatchElevation.MEPElementFilter (doc w) (gestures w)
        = (Return r, gs') ->
      fst (MatchElevation.set_element_elevation host (Some (ElementId r)) src w)
        = Return false ->
      while_True (MatchElevation.target_round host src disp) c w
      = while_True (MatchElevation.target_round host src disp) (S c)
          (mkWorld (doc w) gs' (trace w ++ target_events disp) None)) /\
  (forall a b p s c (w : World num) r gs' e ex,
      pick_scan CopieDimText.DimensionSelectionFilter (doc w) (gestures w)
        = (Return r, gs') ->
      doc w !! ElementId r = Some e ->
      paste host a b p s e = inr ex ->
      while_True (CopieDimText.paste_round host a b p s) c w
      = (Return c, mkWorld (doc w) gs' (trace w ++ failure_events ex) None)).
Proof.
  split.
  - intros src disp c w r gs' Hpick Hfalse.
    rewrite set_element_elevation_run in Hfalse. cbn [fst] in Hfalse.
    injection Hfalse as Hfalse.
    rewrite target_loop_unroll, Hpick.
    now rewrite (set_fails_doc_unchanged host src (doc w)
                   (Some (ElementId r)) Hfalse).
  - intros a b p s c w r gs' e ex Hpick He Hpaste.
    rewrite (while_True_unroll _ (paste_round_productive host a b p s)).
    now rewrite (paste_round_picked host a b p s c w r gs' e Hpick He), Hpaste.
Qed.

End Sessions.

Lemma no_text_ends_before_targets_witness :
  CopieDimText.main accepting_host blank_source_world =
  (Return tt,
   mkWorld dimensions [Click 1%Z; Esc]
           [EvPickObject CopieDimText.DimensionSelectionFilter
              SelectSourceDimension;
            EvAlert NoTextFound]
           None).
Proof.
  apply (proj1 (proj2 (no_text_ends_before_targets accepting_host
                         blank_source_world (mkReference 11) [Click 1%Z; Esc]
                         blank_dimension
                         (mkDimensionText None (Some ""%string) None None)
                         eq_refl eq_refl eq_refl))).
  reflexivity.
Defined.

Lemma session_alerts_witness :
  exists c w' l,
    CopieDimText.main strict_host three_dimensions_world = (Return tt, w') /\
    trace w' =
      trace three_dimensions_world
      ++ EvPickObject CopieDimText.DimensionSelectionFilter
           SelectSourceDimension
      :: EvPickObject CopieDimText.DimensionSelectionFilter
           SelectTargetDimension
      :: l ++ [EvAlert (summary c)] /\
    c = commits l /\
    (alerts l = [] \/ exists ex, alerts l = [ErrorDuringSelection ex]).
Proof.
  apply (proj1 (session_alerts strict_host) three_dimensions_world
           (mkReference 10) [Click 1%Z; Click 2%Z; Click 3%Z; Esc]
           source_dimension
           (mkDimensionText (Some "A"%string) (Some ""%string)
                            (Some "PRE"%string) None));
    reflexivity.
Defined.

Lemma failed_target_in_each_tool_witness :
  while_True (MatchElevation.target_round accepting_host 5%float 1524%float)
    1%nat (initial_world three_targets [Click 2%Z; Click 3%Z; Esc])
  = while_True (MatchElevation.target_round accepting_host 5%float 1524%float)
      2%nat
      (mkWorld three_targets [Click 3%Z; Esc]
               ([] ++ target_events 1524%float) None).
Proof.
  apply (proj1 (failed_target_in_each_tool accepting_host)
           5%float 1524%float 1%nat
           (initial_world three_targets [Click 2%Z; Click 3%Z; Esc])
           (mkReference 2) [Click 3%Z; Esc]);
    reflexivity.
Defined.

(** C3 as stated fails.  Elevation tool, three targets of which the
    second cannot be moved: the counter ends at 3 and nothing records the
    failure.  Dimension tool, three targets of which the second refuses
    the text: the loop ends there, the third target keeps its text, is
    never picked, and the summary counts one dimension. *)
Lemma second_of_three_targets_fails :
  let elevation :=
    MatchElevation.target_loop accepting_host 5%float 1524%float
      three_targets_world in
  let dimension := CopieDimText.main strict_host three_dimensions_world in
  (fst elevation = Return 3%nat /\
   doc (snd elevation) !! 2%Z = Some point_element /\
   doc (snd elevation) !! 3%Z = Some (pipe (pt 0 0 3) (pt 10 0 7)) /\
   alerts (trace (snd elevation)) = []) /\
  (doc (snd dimension) !! 3%Z = Some target_dimension /\
   gestures (snd dimension) = [Click 3%Z; Esc] /\
   alerts (trace (snd dimension))
     = [ErrorDuringSelection HostException; Success 1]).
Proof. repeat split. Qed.

(** C7 as stated fails.  A session of the elevation tool with two
    targets ends without any alert; a session of the dimension tool in
    which a write fails alerts the error before the summary. *)
Lemma sessions_without_one_summary :
  alerts (trace (snd (MatchElevation.main accepting_host
                        (initial_world three_targets
                           [Click 1%Z; Click 3%Z; Click 1%Z; Esc]))))
    = [] /\
  alerts (trace (snd (CopieDimText.main strict_host three_dimensions_world)))
    = [ErrorDuringSelection HostException; Success 1].
Proof. split; reflexivity. Qed.

(** The scenario of the specification for text: a target whose text
    below is "OLD" gets the empty text below of the source. *)
Example empty_text_overwrites :
  doc (snd (CopieDimText.main accepting_host three_dimensions_world)) !! 1%Z
  = Some source_dimension.
Proof. reflexivity. Qed.

Lemma set_element_elevation_guard_witness :
  MatchElevation.set_element_elevation accepting_host (Some 2%Z) 5%float
    point_world
  = (Return false, point_world).
Proof.
  apply (proj1 (set_element_elevation_guard accepting_host 5%float point_world)
           2%Z point_element).
  - reflexivity.
  - intros curve H. discriminate H.
Defined.

(** A variable holding [None] instead of an element: the attribute
    access raises and the helper returns [None]. *)
Lemma helpers_never_raise_witness :
  MatchElevation.get_element_middle_elevation None point_world
  = (Return None, point_world).
Proof.
  apply (proj1 (proj2 (proj2
           (helpers_never_raise accepting_host None 5%float point_world)))
           AttributeError point_world).
  reflexivity.
Defined.

Lemma shiftToMidpoint_horizontal_unchanged_witness :
  elem_location <$>
    doc (snd (MatchElevation.set_element_elevation accepting_host (Some 1%Z)
                (Qc_of_Z 5) scenario_world)) !! 1%Z
  = Some (LocationCurve
            (Line_Bound
               (seg_start (shiftToMidpoint scenario_segment (Qc_of_Z 5)))
               (seg_end (shiftToMidpoint scenario_segment (Qc_of_Z 5))))).
Proof.
  apply (proj2 (shiftToMidpoint_horizontal_unchanged accepting_host
                  scenario_segment (Qc_of_Z 5))
           scenario_world _ 1%Z scenario_pipe
           (Line_Bound (seg_start scenario_segment)
                       (seg_end scenario_segment)));
    reflexivity.
Defined.

(* ===================================================================== *)
(** * What a session keeps                                                *)
(* ===================================================================== *)

Section LoopInvariants.
Context {num : Type} {A : Arith num}.

(** A relation between the worlds before and after every round holds
    between the worlds before and after the loop. *)
Lemma while_fuel_preserves {St} (round : St -> M num (St + St))
    (R : World num -> World num -> Prop) :
  (forall w, R w w) ->
  (forall w1 w2 w3, R w1 w2 -> R w2 w3 -> R w1 w3) ->
  (forall s w, R w (snd (round s w))) ->
  forall fuel s w, R w (snd (while_fuel fuel round s w)).
Proof.
  intros Hrefl Htrans Hround.
  induction fuel as [|fuel IH]; intros s w; simpl; [apply Hrefl|].
  unfold bind. specialize (Hround s w).
  destruct (round s w) as [[[s'|s']| |] w']; simpl in *; try assumption.
  apply (Htrans w w'); [assumption|apply IH].
Qed.

End LoopInvariants.

Section ElevationFrame.
Context {num : Type} {A : Arith num}.
Variable host : Host num.
Import MatchElevation.
Local Arguments doc_after_set : simpl never.
Local Arguments middle_elevation_of : simpl never.

Lemma kept_or_moved_vertically_trans (e1 e2 e3 : Element num) :
  kept_or_moved_vertically e1 e2 -> kept_or_moved_vertically e2 e3 ->
  kept_or_moved_vertically e1 e3.
Proof.
  intros [->|(curve & s & p & q & Hloc & Hends & -> & Hxp & Hyp & Hxq & Hyq)]
    H23; [exact H23|].
  destruct H23
    as [->|(curve' & s' & p' & q' & Hloc' & Hends' & -> & Hxp' & Hyp' & Hxq' & Hyq')];
    right; exists curve, s.
  - exists p, q. now repeat split.
  - simpl in Hloc'. injection Hloc' as <-.
    unfold end_points in Hends'. simpl in Hends'. injection Hends' as <-.
    simpl in *. exists p', q'. repeat split; congruence.
Qed.

Lemma only_heights_changed_refl (d : gmap Z (Element num)) :
  only_heights_changed d d.
Proof. intros id. destruct (d !! id); [now left|exact I]. Qed.

Lemma only_heights_changed_trans (d1 d2 d3 : gmap Z (Element num)) :
  only_heights_changed d1 d2 -> only_heights_changed d2 d3 ->
  only_heights_changed d1 d3.
Proof.
  intros H12 H23 id. specialize (H12 id). specialize (H23 id).
  destruct (d1 !! id) as [e1|], (d2 !! id) as [e2|], (d3 !! id) as [e3|];
    try contradiction; try exact I.
  now apply (kept_or_moved_vertically_trans e1 e2 e3).
Qed.

Lemma doc_after_set_only_heights_changed (E : num)
    (d : gmap Z (Element num)) (element : PyElement) :
  only_heights_changed d (doc_after_set host E d element).
Proof.
  unfold doc_after_set.
  destruct element as [id|]; [|apply only_heights_changed_refl].
  destruct (d !! id) as [e|] eqn:He; [|apply only_heights_changed_refl].
  destruct (new_line host e E) as [line|] eqn:Hline;
    [|apply only_heights_changed_refl].
  destruct (new_line_Some host e E line Hline)
    as (curve & s & Hloc & Hends & ->).
  intros id'. destruct (decide (id = id')) as [<-|Hne].
  - rewrite lookup_insert_eq, He. right.
    exists curve, s, (seg_start (shiftToMidpoint s E)),
      (seg_end (shiftToMidpoint s E)).
    now repeat split.
  - rewrite lookup_insert_ne by exact Hne.
    destruct (d !! id'); [now left|exact I].
Qed.

(** The session of the elevation tool, by cases on its source pick. *)
Lemma elevation_main_run (w : World num) :
  let pick := pick_scan MEPElementFilter (doc w) (gestures w) in
  let w1 := mkWorld (doc w) (snd pick)
              (trace w ++ [EvPickObject MEPElementFilter SelectSourceElement])
              (open_transaction w) in
  main host w =
  match fst pick with
  | Return r =>
      match middle_elevation_of (doc w) (Some (ElementId r)) with
      | Some E =>
          (Return tt, snd (target_loop host E (num_mul E lit_304_8) w1))
      | None =>
          (Return tt,
           mkWorld (doc w) (snd pick)
             (trace w ++ [EvPickObject MEPElementFilter SelectSourceElement;
                          EvAlert CouldNotGetElevation])
             (open_transaction w))
      end
  | _ => (Return tt, w1)
  end.
Proof.
  intros pick w1. subst pick w1.
  unfold main, try_except, bind at 1. rewrite PickObject_run.
  pose proof (MEPElementFilter_no_OutOfFuel (doc w) (gestures w)) as Hfuel.
  destruct (pick_scan MEPElementFilter (doc w) (gestures w))
    as [[r| |] gs'] eqn:Hpick; cbn [fst snd] in *.
  - destruct (pick_scan_pickable _ _ _ _ _ Hpick) as (e & He & _).
    unfold bind at 1, GetElement. cbn [doc]. rewrite He.
    unfold bind at 1. rewrite get_element_middle_elevation_run. cbn [doc].
    destruct (middle_elevation_of (doc w) (Some (ElementId r))) as [E|].
    + match goal with
      | |- context [target_loop host ?s ?d ?w1] =>
          destruct (target_loop_events host s d w1)
            as (c & w' & l & Hrun & _)
      end.
      unfold bind. now rewrite Hrun.
    + unfold bind, alert, emit, raise. cbn. now rewrite <- app_assoc.
  - reflexivity.
  - now destruct Hfuel.
Qed.

Lemma target_loop_only_heights_changed (src disp : num) (w : World num) :
  only_heights_changed (doc w) (doc (snd (target_loop host src disp w))).
Proof.
  unfold target_loop, while_True.
  apply (while_fuel_preserves (target_round host src disp)
           (fun w w' => only_heights_changed (doc w) (doc w'))).
  - intros w0. apply only_heights_changed_refl.
  - intros w1 w2 w3. apply only_heights_changed_trans.
  - intros c w0. rewrite target_round_run.
    destruct (pick_scan MEPElementFilter (doc w0) (gestures w0))
      as [[r| |] gs']; cbn [snd doc];
      [apply doc_after_set_only_heights_changed
      |apply only_heights_changed_refl..].
Qed.

(** Whatever the host, the operator and the arithmetic, a session of the
    elevation tool creates and deletes no element, and leaves each
    element either exactly as it was or, if it lay along a curve with end
    points, along the bound line between two points that have the [X] and
    [Y] of these end points, with its category and text fields as they
    were.  An element located at a point, along an unbound curve or
    nowhere is exactly as it was; an arc may have become its chord. *)
Theorem elevation_session_keeps (w : World num) :
  only_heights_changed (doc w) (doc (snd (main host w))).
Proof.
  rewrite elevation_main_run.
  destruct (pick_scan MEPElementFilter (doc w) (gestures w))
    as [[r| |] gs']; cbn [fst snd];
    try apply only_heights_changed_refl.
  destruct (middle_elevation_of (doc w) (Some (ElementId r))) as [E|];
    cbn [snd doc]; [|apply only_heights_changed_refl].
  match goal with
  | |- context [target_loop host ?src ?disp ?w1] =>
      apply (target_loop_only_heights_changed src disp w1)
  end.
Qed.

End ElevationFrame.

Section ElevationEdges.
Context {num : Type} {A : Arith num}.
Variable host : Host num.
Import MatchElevation.
Local Open Scope num_scope.
Local Arguments doc_after_set : simpl never.
Local Arguments middle_elevation_of : simpl never.

(** When the elevation of the picked source cannot be read, the session
    alerts "Could not get elevation from source element" and ends: no
    target is asked for, the gestures after the source pick are not
    consumed and the document is as it was. *)
Theorem unreadable_source_ends_session (w : World num) r gs' :
  pick_scan MEPElementFilter (doc w) (gestures w) = (Return r, gs') ->
  get_element_middle_elevation (Some (ElementId r)) w = (Return None, w) ->
  main host w =
  (Return tt,
   mkWorld (doc w) gs'
           (trace w ++ [EvPickObject MEPElementFilter SelectSourceElement;
                        EvAlert CouldNotGetElevation])
           (open_transaction w)).
Proof.
  intros Hpick Hget. rewrite get_element_middle_elevation_run in Hget.
  injection Hget as Hget.
  rewrite elevation_main_run, Hpick. cbn [fst snd]. now rewrite Hget.
Qed.

(** What [get_element_middle_elevation] reads: on a bound line the mean
    of the [Z] of its two ends; on a bound arc the mean of the [Z] of its
    two ends, whatever the point between them; on an unbound line, and on
    an element that is no longer in the document, [None].  It never
    changes the world. *)
Theorem middle_elevation_by_curve (w : World num) (id : Z) :
  (forall e p q,
      doc w !! id = Some e ->
      elem_location e = LocationCurve (Line_Bound p q) ->
      get_element_middle_elevation (Some id) w
      = (Return (Some ((Z_ p + Z_ q) / lit_2_0)), w)) /\
  (forall e p q m,
      doc w !! id = Some e ->
      elem_location e = LocationCurve (Arc_Bound p q m) ->
      get_element_middle_elevation (Some id) w
      = (Return (Some ((Z_ p + Z_ q) / lit_2_0)), w)) /\
  (forall e o d,
      doc w !! id = Some e ->
      elem_location e = LocationCurve (Line_Unbound o d) ->
      get_element_middle_elevation (Some id) w = (Return None, w)) /\
  (doc w !! id = None ->
   get_element_middle_elevation (Some id) w = (Return None, w)).
Proof.
  repeat split; intros; rewrite get_element_middle_elevation_run;
    unfold middle_elevation_of;
    repeat match goal with H : _ = _ |- _ => rewrite H end; reflexivity.
Qed.


End ElevationEdges.

Section ElevationGoal.
Context {num : Type} {A : Arith num} {EA : ExactArith num}.
Variable host : Host num.
Import MatchElevation.
Local Open Scope num_scope.
Local Arguments doc_after_set : simpl never.
Local Arguments middle_elevation_of : simpl never.

Add Field num_field_goal : exact_field.

Lemma rise_shiftToMidpoint (s : Segment num) (E : num) :
  rise (shiftToMidpoint s E) = rise s.
Proof. unfold rise, shiftToMidpoint. simpl. ring. Qed.

(** "While maintaining its slope": in exact arithmetic the shift keeps
    the rise of the segment as well as its horizontal vector, and so does
    [set_element_elevation] for the element it moves. *)
Theorem slope_is_kept (s : Segment num) (E : num) :
  rise (shiftToMidpoint s E) = rise s /\
  horizontal_vector (shiftToMidpoint s E) = horizontal_vector s /\
  (forall (w w' : World num) (id : Z) (e : Element num) (curve : Curve num),
      doc w !! id = Some e ->
      elem_location e = LocationCurve curve ->
      end_points curve = Some s ->
      set_element_elevation host (Some id) E w = (Return true, w') ->
      exists e' s1,
        doc w' !! id = Some e' /\
        elem_location e' = LocationCurve (Line_Bound (seg_start s1) (seg_end s1)) /\
        rise s1 = rise s /\
        horizontal_vector s1 = horizontal_vector s).
Proof.
  split; [apply rise_shiftToMidpoint|]. split; [reflexivity|].
  intros w w' id e curve He Hloc Hends.
  rewrite set_element_elevation_run.
  unfold set_succeeds, doc_after_set, new_line.
  rewrite He, Hloc, Hends. cbn zeta.
  destruct (valid_bound host _ _ && accepts_curve host e _);
    intros [= <-]. cbn [doc].
  eexists. exists (shiftToMidpoint s E).
  split; [apply lookup_insert_eq|]. split; [reflexivity|].
  split; [apply rise_shiftToMidpoint|reflexivity].
Qed.

Section AcceptingHost.
Hypothesis valid_bound_always : forall p q, valid_bound host p q = true.
Hypothesis accepts_curve_always : forall e c, accepts_curve host e c = true.
Variable E : num.

Lemma new_line_accepted (e : Element num) (curve : Curve num)
    (s : Segment num) :
  elem_location e = LocationCurve curve ->
  end_points curve = Some s ->
  new_line host e E
  = Some (Line_Bound (seg_start (shiftToMidpoint s E))
                     (seg_end (shiftToMidpoint s E))).
Proof.
  intros Hloc Hends. unfold new_line. rewrite Hloc, Hends. cbn zeta.
  now rewrite valid_bound_always, accepts_curve_always.
Qed.

Lemma middle_elevation_of_Some (d : gmap Z (Element num)) (id : Z) m :
  middle_elevation_of d (Some id) = Some m ->
  exists e curve s,
    d !! id = Some e /\ elem_location e = LocationCurve curve /\
    end_points curve = Some s /\ m = computeMidpoint s.
Proof.
  unfold middle_elevation_of.
  destruct (d !! id) as [e|]; [|discriminate].
  destruct (elem_location e) as [curve| |] eqn:Hloc; try discriminate.
  destruct (end_points curve) as [s|] eqn:Hends; [|discriminate].
  intros [= <-]. now exists e, curve, s.
Qed.

Lemma moved_reads_E (d : gmap Z (Element num)) (id : Z) m :
  middle_elevation_of d (Some id) = Some m ->
  middle_elevation_of (doc_after_set host E d (Some id)) (Some id) = Some E.
Proof.
  intros Hm.
  destruct (middle_elevation_of_Some d id m Hm)
    as (e & curve & s & He & Hloc & Hends & _).
  unfold doc_after_set. rewrite He, (new_line_accepted e curve s Hloc Hends).
  unfold middle_elevation_of. rewrite lookup_insert_eq. simpl.
  pose proof (computeMidpoint_shiftToMidpoint s E) as Hmid.
  rewrite shiftToMidpoint_unfold in Hmid. now rewrite Hmid.
Qed.

Lemma others_read_the_same (d : gmap Z (Element num)) (id id' : Z) :
  id <> id' ->
  middle_elevation_of (doc_after_set host E d (Some id)) (Some id')
  = middle_elevation_of d (Some id').
Proof.
  intros Hne. unfold doc_after_set.
  destruct (d !! id) as [e|]; [|reflexivity].
  destruct (new_line host e E); [|reflexivity].
  unfold middle_elevation_of. now rewrite lookup_insert_ne.
Qed.

Lemma clicked_read_E (ids : list Z) :
  forall (d : gmap Z (Element num)) (id : Z),
    (In id ids /\ is_Some (middle_elevation_of d (Some id))) \/
    middle_elevation_of d (Some id) = Some E ->
    middle_elevation_of
      (foldl (fun d id => doc_after_set host E d (Some id)) d ids) (Some id)
    = Some E.
Proof.
  induction ids as [|a ids IH]; intros d id H; simpl.
  - destruct H as [[[] _]|H]. exact H.
  - apply IH. destruct (decide (a = id)) as [->|Hne].
    + right. destruct H as [[_ [m Hm]]|H]; eapply moved_reads_E; eassumption.
    + rewrite (others_read_the_same d a id Hne).
      destruct H as [[[Heq|Hin] Hsome]|H]; [contradiction|left|right]; auto.
Qed.

(** What the tool is for.  In exact arithmetic and with a host that
    accepts every line: after a session in which the operator picks a
    source whose elevation can be read, then clicks some pickable
    elements and presses Esc, every clicked element that lay along a
    curve with end points has the middle elevation the source had. *)
Theorem clicked_targets_match_source (w : World num) (source : Z)
    (ids : list Z) (rest : list gesture) :
  gestures w = Click source :: map Click ids ++ Esc :: rest ->
  pickable MEPElementFilter (doc w) source ->
  Forall (pickable MEPElementFilter (doc w)) ids ->
  get_element_middle_elevation (Some source) w = (Return (Some E), w) ->
  let w' := snd (main host w) in
  forall id m,
    In id ids ->
    get_element_middle_elevation (Some id) w = (Return (Some m), w) ->
    get_element_middle_elevation (Some id) w' = (Return (Some E), w').
Proof.
  intros Hgs Hsource Hids Hget w' id m Hin Hm. subst w'.
  rewrite get_element_middle_elevation_run in Hget, Hm.
  assert (Hsrc : middle_elevation_of (doc w) (Some source) = Some E)
    by congruence.
  assert (Hid : middle_elevation_of (doc w) (Some id) = Some m)
    by congruence.
  clear Hget Hm.
  rewrite get_element_middle_elevation_run. f_equal. f_equal.
  rewrite elevation_main_run, Hgs, (pick_scan_Click _ _ _ _ Hsource).
  cbn [fst snd ElementId]. rewrite Hsrc.
  match goal with
  | |- context [target_loop host E ?disp ?w1] =>
      destruct (target_loop_clicks host E disp ids 0%nat w1 rest eq_refl Hids)
        as (w2 & Hrun & Hdoc & _);
      unfold target_loop; rewrite Hrun
  end.
  cbn [snd]. rewrite Hdoc. cbn [doc].
  apply clicked_read_E. left. split; [exact Hin|]. now exists m.
Qed.

End AcceptingHost.
End ElevationGoal.

Lemma slope_is_kept_witness :
  exists e' s1,
    doc (snd (MatchElevation.set_element_elevation accepting_host (Some 1%Z)
                (Qc_of_Z 5) scenario_world)) !! 1%Z = Some e' /\
    elem_location e' = LocationCurve (Line_Bound (seg_start s1) (seg_end s1)) /\
    rise s1 = rise scenario_segment /\
    horizontal_vector s1 = horizontal_vector scenario_segment.
Proof.
  apply (proj2 (proj2 (slope_is_kept accepting_host scenario_segment
                         (Qc_of_Z 5)))
           scenario_world _ 1%Z scenario_pipe
           (Line_Bound (seg_start scenario_segment)
                       (seg_end scenario_segment)));
    reflexivity.
Defined.

(** The source rises from 0 to 4; the pipe from 7 to 11 and the level
    pipe at -1, clicked twice, end with the middle elevation of the
    source. *)
Lemma clicked_targets_match_source_witness :
  MatchElevation.get_element_middle_elevation (Some 3%Z)
    (snd (MatchElevation.main accepting_host pipes_Qc_world))
  = (Return (Some (computeMidpoint scenario_segment)),
     snd (MatchElevation.main accepting_host pipes_Qc_world)).
Proof.
  apply (clicked_targets_match_source accepting_host
           (fun _ _ => eq_refl) (fun _ _ => eq_refl)
           (computeMidpoint scenario_segment)
           pipes_Qc_world 1%Z [2%Z; 3%Z; 3%Z] [] eq_refl)
    with (m := computeMidpoint (mkSegment (ptQ 3 3 (-1)) (ptQ 3 9 (-1)))).
  - eexists. split; reflexivity.
  - repeat constructor; eexists; split; reflexivity.
  - reflexivity.
  - simpl. tauto.
  - reflexivity.
Defined.

Section DimensionFrame.
Context {num : Type} {A : Arith num}.
Variable host : Host num.
Import CopieDimText.
Local Arguments paste : simpl never.

Lemma write_text_inl update v (e e' : Element num) :
  write_text host update v e = inl e' ->
  exists t,
    elem_dimension e = Some t /\
    e' = mkElement (elem_category e) (elem_location e) (Some (update v t)).
Proof.
  unfold write_text. destruct (elem_dimension e) as [t|]; [|discriminate].
  destruct (accepts_text host e); [|discriminate].
  intros [= <-]. now exists t.
Qed.

(** Four accepted writes overwrite the four fields and nothing else. *)
Lemma paste_inl a b p s (e e' : Element num) :
  paste host a b p s e = inl e' ->
  is_dimension e = true /\ e' = pasted a b p s e.
Proof.
  unfold paste.
  destruct (write_text host update_Above a e) as [e1|] eqn:H1; [|discriminate].
  destruct (write_text host update_Below b e1) as [e2|] eqn:H2; [|discriminate].
  destruct (write_text host update_Prefix p e2) as [e3|] eqn:H3; [|discriminate].
  intros H4.
  apply write_text_inl in H1 as (t1 & Ht1 & ->).
  apply write_text_inl in H2 as (t2 & [= <-] & ->).
  apply write_text_inl in H3 as (t3 & [= <-] & ->).
  apply write_text_inl in H4 as (t4 & [= <-] & ->).
  unfold is_dimension. rewrite Ht1. split; reflexivity.
Qed.

(** A round of the dimension tool's loop is all or nothing: either it
    breaks, with the counter and the document as they were, or it goes
    on, with the counter increased by one and the four text fields of one
    dimension overwritten by the copied ones, empty ones included, and
    nothing else changed. *)
Theorem paste_round_all_or_nothing a b p s (c : nat) (w : World num) :
  let r := paste_round host a b p s c w in
  (fst r = Return (inr c) /\ doc (snd r) = doc w) \/
  (exists id e,
      doc w !! id = Some e /\ is_dimension e = true /\
      fst r = Return (inl (S c)) /\
      doc (snd r) = <[id := pasted a b p s e]> (doc w)).
Proof.
  intros r. subst r.
  destruct (paste_round_cases host a b p s c w)
    as [(r & e & e' & He & Hpaste & -> & _)|[(ex & ->)| ->]];
    cbn [fst snd doc]; [right|left; now split..].
  apply paste_inl in Hpaste as (Hdim & ->).
  now exists (ElementId r), e.
Qed.

Lemma same_but_texts_refl (d : gmap Z (Element num)) : same_but_texts d d.
Proof. intros id. now repeat split. Qed.

Lemma same_but_texts_trans (d1 d2 d3 : gmap Z (Element num)) :
  same_but_texts d1 d2 -> same_but_texts d2 d3 -> same_but_texts d1 d3.
Proof.
  intros H12 H23 id.
  destruct (H12 id) as (Hc & Hl & Hd), (H23 id) as (Hc' & Hl' & Hd').
  repeat split; congruence.
Qed.

Lemma same_but_texts_pasted a b p s (d : gmap Z (Element num)) id e :
  d !! id = Some e -> is_dimension e = true ->
  same_but_texts d (<[id := pasted a b p s e]> d).
Proof.
  intros He Hdim id'. destruct (decide (id = id')) as [<-|Hne].
  - rewrite lookup_insert_eq, He. simpl. now rewrite Hdim.
  - now rewrite lookup_insert_ne.
Qed.

Lemma paste_round_same_but_texts a b p s (c : nat) (w : World num) :
  same_but_texts (doc w) (doc (snd (paste_round host a b p s c w))).
Proof.
  destruct (paste_round_cases host a b p s c w)
    as [(r & e & e' & He & Hpaste & -> & _)|[(ex & ->)| ->]];
    cbn [snd doc]; try apply same_but_texts_refl.
  apply paste_inl in Hpaste as (Hdim & ->).
  now apply same_but_texts_pasted.
Qed.

Lemma pick_scan_dimension (d : gmap Z (Element num)) gs r gs' :
  pick_scan DimensionSelectionFilter d gs = (Return r, gs') ->
  exists e t, d !! ElementId r = Some e /\ elem_dimension e = Some t.
Proof.
  intros Hpick. destruct (pick_scan_pickable _ _ _ _ _ Hpick) as (e & He & Hf).
  simpl in Hf. unfold DimensionSelectionFilter_AllowElement in Hf.
  destruct (elem_dimension e) as [t|] eqn:Ht; [|discriminate].
  now exists e, t.
Qed.

Lemma main_cancelled (w : World num) ex gs' :
  pick_scan DimensionSelectionFilter (doc w) (gestures w) = (Raise ex, gs') ->
  main host w =
  (Return tt,
   mkWorld (doc w) gs'
           (trace w ++ [EvPickObject DimensionSelectionFilter
                          SelectSourceDimension;
                        EvAlert CancelledByUser])
           (open_transaction w)).
Proof.
  intros Hpick.
  destruct (DimensionSelectionFilter_pick (doc w) (gestures w))
    as [[r Hr]|Hr]; rewrite Hpick in Hr; simpl in Hr; [discriminate|].
  injection Hr as ->.
  unfold main, try_except, bind at 1. rewrite PickObject_run, Hpick.
  cbn. unfold alert, emit. cbn. now rewrite <- app_assoc.
Qed.

(** The session of the dimension tool, by cases: the world it ends in
    is the one after the source pick and an alert, with the loop between
    them when the source has text. *)
Lemma dimension_main_cases (w : World num) :
  let pick := pick_scan DimensionSelectionFilter (doc w) (gestures w) in
  let w1 := mkWorld (doc w) (snd pick)
              (trace w ++ [EvPickObject DimensionSelectionFilter
                             SelectSourceDimension])
              (open_transaction w) in
  (exists a, main host w = (Return tt, snd (alert a w1))) \/
  (exists a b p s c w2,
      while_True (paste_round host a b p s) 0%nat w1 = (Return c, w2) /\
      main host w = (Return tt, snd (alert (summary c) w2))).
Proof.
  intros pick w1. subst pick w1.
  pose proof (DimensionSelectionFilter_no_OutOfFuel (doc w) (gestures w))
    as Hfuel.
  destruct (pick_scan DimensionSelectionFilter (doc w) (gestures w))
    as [[r|ex|] gs'] eqn:Hpick; cbn [fst snd] in *.
  - destruct (pick_scan_dimension _ _ _ _ Hpick) as (e & t & He & Ht).
    rewrite (main_picked host w r gs' e t Hpick He Ht).
    destruct (no_text (Above t) (Below t) (Prefix t) (Suffix t)).
    + left. now exists NoTextFound.
    + right.
      match goal with
      | |- context [bind _ _ ?w1] =>
          destruct (paste_loop_events host (Above t) (Below t) (Prefix t)
                      (Suffix t) w1) as (c & w2 & l & Hrun & _)
      end.
      exists (Above t), (Below t), (Prefix t), (Suffix t), c, w2.
      split; [exact Hrun|]. unfold bind. now rewrite Hrun.
  - left. exists CancelledByUser.
    rewrite (main_cancelled w ex gs' Hpick). unfold alert, emit. cbn.
    now rewrite <- app_assoc.
  - now destruct Hfuel.
Qed.

(** Whatever the host and the operator, a session of the dimension tool
    leaves the document with the same elements, each with its category
    and its location; dimensions stay dimensions, and an element that is
    not a dimension is exactly as it was. *)
Theorem dimension_session_keeps (w : World num) :
  same_but_texts (doc w) (doc (snd (main host w))) /\
  (forall id e,
      doc w !! id = Some e -> is_dimension e = false ->
      doc (snd (main host w)) !! id = Some e).
Proof.
  assert (Hsame : same_but_texts (doc w) (doc (snd (main host w)))).
  { destruct (dimension_main_cases w)
      as [(a & ->)|(a & b & p & s & c & w2 & Hrun & ->)]; cbn [snd doc alert emit].
    - apply same_but_texts_refl.
    - change w2 with (snd (Return c, w2)). rewrite <- Hrun.
      unfold while_True.
      apply (while_fuel_preserves (paste_round host a b p s)
               (fun w w' => same_but_texts (doc w) (doc w'))
               (fun w0 => same_but_texts_refl (doc w0))
               (fun w1 w2 w3 => same_but_texts_trans (doc w1) (doc w2) (doc w3))
               (fun c0 w0 => paste_round_same_but_texts a b p s c0 w0)
               _ 0%nat
               (mkWorld (doc w)
                  (snd (pick_scan DimensionSelectionFilter (doc w) (gestures w)))
                  (trace w ++ [EvPickObject DimensionSelectionFilter
                                 SelectSourceDimension])
                  (open_transaction w))). }
  split; [exact Hsame|].
  intros id e He Hdim. destruct (Hsame id) as (Hc & Hl & Hd).
  rewrite He in Hc, Hl, Hd. simpl in *.
  destruct (doc (snd (main host w)) !! id) as [e'|]; [|discriminate].
  simpl in *. injection Hc as Hc. injection Hl as Hl. injection Hd as Hd.
  f_equal. destruct e as [c l d], e' as [c' l' d']. simpl in *. subst.
  unfold is_dimension in *. simpl in *.
  destruct d, d'; try discriminate. reflexivity.
Qed.

End DimensionFrame.

Section SessionTraces.
Context {num : Type} {A : Arith num}.
Variable host : Host num.
Variable P : list (Event num) -> Prop.
Hypothesis P_nil : P [].
Hypothesis P_app : forall l1 l2, P l1 -> P l2 -> P (l1 ++ l2).

(** Events of a session of the elevation tool: what holds of the events
    of each step and of the events of two steps in a row holds of the
    events of the session. *)
Lemma elevation_trace_ind :
  P [EvPickObject MatchElevation.MEPElementFilter SelectSourceElement] ->
  P [EvAlert CouldNotGetElevation] ->
  (forall disp, P (target_events disp)) ->
  (forall disp,
      P [EvPickObject MatchElevation.MEPElementFilter
           (ClickElementsToMatch disp)]) ->
  forall w : World num,
    exists l,
      trace (snd (MatchElevation.main host w)) = trace w ++ l /\ P l.
Proof.
  intros Hsource Halert Htarget Hlast w.
  rewrite elevation_main_run.
  destruct (pick_scan MatchElevation.MEPElementFilter (doc w) (gestures w))
    as [[r| |] gs']; cbn [fst snd];
    try (eexists; split; [reflexivity|exact Hsource]).
  destruct (middle_elevation_of (doc w) (Some (ElementId r))) as [E|];
    cbn [snd trace].
  - match goal with
    | |- context [MatchElevation.target_loop host ?src ?disp ?w1] =>
        destruct (while_fuel_events (MatchElevation.target_round host src disp)
                    (fun _ _ l => P l) (fun _ _ l => P l))
          with (fuel := S (length (gestures w1))) (s := 0%nat) (w := w1)
          as (c1 & c' & w' & l1 & l2 & Hrun & Htr & HP1 & HP2)
    end.
    + intros _. exact P_nil.
    + intros _ _ _ l1 l2. apply P_app.
    + intros c w0. rewrite target_round_run.
      destruct (pick_scan MatchElevation.MEPElementFilter (doc w0)
                  (gestures w0)) as [[r0| |] gs0] eqn:Hpick; simpl.
      * split; [now apply pick_scan_Return_length in Hpick|].
        eexists; split; [reflexivity|apply Htarget].
      * eexists; split; [reflexivity|apply Hlast].
      * destruct (MEPElementFilter_no_OutOfFuel (doc w0) (gestures w0)).
        now rewrite Hpick.
    + simpl. lia.
    + unfold MatchElevation.target_loop, while_True. rewrite Hrun.
      cbn [snd]. rewrite Htr. cbn [trace]. rewrite <- app_assoc.
      eexists; split; [reflexivity|].
      apply (P_app [_]); [exact Hsource|now apply P_app].
  - exists [EvPickObject MatchElevation.MEPElementFilter SelectSourceElement;
            EvAlert CouldNotGetElevation].
    split; [reflexivity|]. now apply (P_app [_] [_]).
Qed.

(** The same for the dimension tool. *)
Lemma dimension_trace_ind :
  P [EvPickObject CopieDimText.DimensionSelectionFilter
       SelectSourceDimension] ->
  (forall a, P [EvAlert a]) ->
  P paste_events ->
  (forall ex, P (failure_events ex)) ->
  P [EvPickObject CopieDimText.DimensionSelectionFilter
       SelectTargetDimension] ->
  forall w : World num,
    exists l,
      trace (snd (CopieDimText.main host w)) = trace w ++ l /\ P l.
Proof.
  intros Hsource Halert Hpaste Hfailure Hlast w.
  destruct (dimension_main_cases host w)
    as [(a & ->)|(a & b & p & s & c & w2 & Hrun & ->)];
    unfold alert, emit; cbn [snd trace].
  - rewrite <- app_assoc. eexists; split; [reflexivity|].
    apply (P_app [_] [_]); [exact Hsource|apply Halert].
  - match type of Hrun with
    | while_True _ _ ?w1 = _ =>
        destruct (while_fuel_events (CopieDimText.paste_round host a b p s)
                    (fun _ _ l => P l) (fun _ _ l => P l))
          with (fuel := S (length (gestures w1))) (s := 0%nat) (w := w1)
          as (c1 & c' & w' & l1 & l2 & Hrun' & Htr & HP1 & HP2)
    end.
    + intros _. exact P_nil.
    + intros _ _ _ l1 l2. apply P_app.
    + intros c0 w0.
      destruct (paste_round_cases host a b p s c0 w0)
        as [(r & e & e' & _ & _ & -> & Hlen)|[(ex & ->)| ->]]; simpl.
      * split; [exact Hlen|]. eexists; split; [reflexivity|exact Hpaste].
      * eexists; split; [reflexivity|apply Hfailure].
      * eexists; split; [reflexivity|exact Hlast].
    + simpl. lia.
    + unfold while_True in Hrun. rewrite Hrun in Hrun'.
      injection Hrun' as _ <-. rewrite Htr. cbn [trace].
      rewrite <- !app_assoc. eexists; split; [reflexivity|].
      apply (P_app [_]); [exact Hsource|].
      apply P_app; [exact HP1|]. apply P_app; [exact HP2|apply Halert].
Qed.

End SessionTraces.

Section SessionDiscipline.
Context {num : Type} {A : Arith num}.
Variable host : Host num.

Lemma well_bracketed_app (l1 l2 : list (Event num)) :
  forall open,
    well_bracketed open l1 = true ->
    well_bracketed false l2 = true ->
    well_bracketed open (l1 ++ l2) = true.
Proof.
  induction l1 as [|ev l1 IH]; intros open H1 H2; simpl in *.
  - now destruct open.
  - destruct ev; try (apply andb_true_iff in H1 as [Ho H1];
                      apply andb_true_iff; split; [exact Ho|]);
      now apply IH.
Qed.

(** In every session of either tool, whatever the host and the operator,
    a transaction is started only when none is open, each transaction is
    committed or rolled back before the next pick is requested, and none
    is open when the session ends. *)
Theorem transactions_well_bracketed (w : World num) :
  (exists l,
      trace (snd (MatchElevation.main host w)) = trace w ++ l /\
      well_bracketed false l = true) /\
  (exists l,
      trace (snd (CopieDimText.main host w)) = trace w ++ l /\
      well_bracketed false l = true).
Proof.
  split.
  - apply (elevation_trace_ind host
             (fun l => well_bracketed false l = true)); try reflexivity.
    intros l1 l2. apply well_bracketed_app.
  - apply (dimension_trace_ind host
             (fun l => well_bracketed false l = true)); try reflexivity.
    intros l1 l2. apply well_bracketed_app.
Qed.

Lemma refreshes_app (l1 l2 : list (Event num)) :
  refreshes (l1 ++ l2) = (refreshes l1 + refreshes l2)%nat.
Proof. unfold refreshes. now rewrite omap_app, length_app. Qed.

(** The dimension tool refreshes the active view once for each
    transaction it commits, so once for each dimension counted in its
    summary; the elevation tool never refreshes the view. *)
Theorem view_refreshed_once_per_commit (w : World num) :
  (exists l,
      trace (snd (CopieDimText.main host w)) = trace w ++ l /\
      refreshes l = commits l) /\
  (exists l,
      trace (snd (MatchElevation.main host w)) = trace w ++ l /\
      refreshes l = 0%nat).
Proof.
  split.
  - apply (dimension_trace_ind host (fun l => refreshes l = commits l));
      try reflexivity.
    intros l1 l2 H1 H2. rewrite refreshes_app, commits_app. congruence.
  - apply (elevation_trace_ind host (fun l => refreshes l = 0%nat));
      try reflexivity.
    intros l1 l2 H1 H2. rewrite refreshes_app. lia.
Qed.

(** [DimensionSelectionFilter.AllowElement] never raises and returns
    [True] exactly for dimensions; [AllowReference] always returns
    [False]; the session of the dimension tool always ends without an
    exception, all its picks, the source pick and each target pick, made
    under this filter; and a pick under it only returns a dimension of
    the document. *)
Theorem DimensionSelectionFilter_gates_every_pick :
  (forall e : Element num,
      AllowElement CopieDimText.DimensionSelectionFilter e
      = Return (is_dimension e)) /\
  (forall (reference : Reference) (position : XYZ num),
      AllowReference CopieDimText.DimensionSelectionFilter reference position
      = false) /\
  (forall w : World num,
      fst (CopieDimText.main host w) = Return tt /\
      exists l,
        trace (snd (CopieDimText.main host w)) = trace w ++ l /\
        picks_under CopieDimText.DimensionSelectionFilter l) /\
  (forall (d : gmap Z (Element num)) gs r gs',
      pick_scan CopieDimText.DimensionSelectionFilter d gs = (Return r, gs') ->
      exists e t, d !! ElementId r = Some e /\ elem_dimension e = Some t).
Proof.
  split; [|split; [|split]].
  - intros e. simpl. unfold CopieDimText.DimensionSelectionFilter_AllowElement,
      is_dimension. now destruct (elem_dimension e).
  - reflexivity.
  - intros w. split.
    + destruct (dimension_main_cases host w)
        as [(a & ->)|(a & b & p & s & c & w2 & _ & ->)]; reflexivity.
    + apply (dimension_trace_ind host
               (picks_under CopieDimText.DimensionSelectionFilter));
        try (repeat constructor).
      intros l1 l2. apply picks_under_app.
  - intros d gs r gs'. apply pick_scan_dimension.
Qed.

(** When the operator presses Esc at the pick of the source, the
    session ends with the document as it was: the elevation tool says
    nothing, the dimension tool alerts "Operation cancelled by user".
    In the elevation tool the same silent end follows any other
    exception raised during the source pick. *)
Theorem source_pick_cancelled (w : World num) :
  (forall ex gs',
      pick_scan MatchElevation.MEPElementFilter (doc w) (gestures w)
        = (Raise ex, gs') ->
      MatchElevation.main host w =
      (Return tt,
       mkWorld (doc w) gs'
               (trace w ++ [EvPickObject MatchElevation.MEPElementFilter
                              SelectSourceElement])
               (open_transaction w))) /\
  (forall gs',
      pick_scan CopieDimText.DimensionSelectionFilter (doc w) (gestures w)
        = (Raise OperationCanceledException, gs') ->
      CopieDimText.main host w =
      (Return tt,
       mkWorld (doc w) gs'
               (trace w ++ [EvPickObject CopieDimText.DimensionSelectionFilter
                              SelectSourceDimension;
                            EvAlert CancelledByUser])
               (open_transaction w))).
Proof.
  split.
  - intros ex gs' Hpick. now rewrite elevation_main_run, Hpick.
  - intros gs' Hpick.
    now apply main_cancelled with (ex := OperationCanceledException).
Qed.

End SessionDiscipline.

Section DimensionClicks.
Context {num : Type} {A : Arith num}.
Variable host : Host num.
Hypothesis accepts_text_always : forall e, accepts_text host e = true.
Variables text_above text_below text_prefix text_suffix : option string.
Import CopieDimText.
Local Arguments paste : simpl never.

Lemma paste_accepted (e : Element num) :
  is_dimension e = true ->
  paste host text_above text_below text_prefix text_suffix e
  = inl (pasted text_above text_below text_prefix text_suffix e).
Proof.
  unfold is_dimension, paste, write_text, pasted.
  destruct (elem_dimension e) as [t|]; [|discriminate]. intros _.
  rewrite !accepts_text_always. simpl. now rewrite !accepts_text_always.
Qed.

Lemma pickable_dimension (d : gmap Z (Element num)) (id : Z) :
  pickable DimensionSelectionFilter d id <->
  exists e, d !! id = Some e /\ is_dimension e = true.
Proof.
  unfold pickable. simpl.
  unfold DimensionSelectionFilter_AllowElement, is_dimension.
  split; intros (e & He & H); exists e; split; try assumption;
    now destruct (elem_dimension e).
Qed.

Lemma paste_on_lookup (d : gmap Z (Element num)) (id id' : Z) :
  (paste_on text_above text_below text_prefix text_suffix) d id !! id'
  = if decide (id = id') then pasted text_above text_below text_prefix text_suffix <$> d !! id' else d !! id'.
Proof.
  unfold paste_on. destruct (decide (id = id')) as [<-|Hne].
  - destruct (d !! id) as [e|] eqn:He; [|now rewrite He].
    now rewrite lookup_insert_eq.
  - destruct (d !! id) as [e|]; [|reflexivity]. now rewrite lookup_insert_ne.
Qed.

Lemma pickable_paste_on (d : gmap Z (Element num)) (id id' : Z) :
  pickable DimensionSelectionFilter d id' ->
  pickable DimensionSelectionFilter ((paste_on text_above text_below text_prefix text_suffix) d id) id'.
Proof.
  rewrite !pickable_dimension. intros (e & He & Hdim).
  rewrite paste_on_lookup, He. destruct (decide (id = id')).
  - now exists (pasted text_above text_below text_prefix text_suffix e).
  - now exists e.
Qed.

Lemma foldl_paste_on_lookup (ids : list Z) :
  forall (d : gmap Z (Element num)) (id : Z),
    (In id ids ->
     foldl (paste_on text_above text_below text_prefix text_suffix) d ids !! id = pasted text_above text_below text_prefix text_suffix <$> d !! id) /\
    (~ In id ids -> foldl (paste_on text_above text_below text_prefix text_suffix) d ids !! id = d !! id).
Proof.
  induction ids as [|a ids IH]; intros d id; simpl.
  - split; [contradiction|reflexivity].
  - destruct (IH ((paste_on text_above text_below text_prefix text_suffix) d a) id) as [IHin IHout].
    rewrite paste_on_lookup in IHin, IHout.
    destruct (decide (a = id)) as [->|Hne].
    + split; [|intros H; destruct H; now left]. intros _.
      destruct (in_dec Z.eq_dec id ids) as [Hin|Hout].
      * rewrite (IHin Hin). now destruct (d !! id).
      * now rewrite (IHout Hout).
    + split.
      * intros [Heq|Hin]; [contradiction|now apply IHin].
      * intros Hout. apply IHout. intros Hin. apply Hout. now right.
Qed.

(** The loop on a script of clicks on dimensions, then Esc. *)
Lemma paste_loop_clicks (ids : list Z) :
  forall (c : nat) (w : World num) (rest : list gesture),
    gestures w = map Click ids ++ Esc :: rest ->
    Forall (pickable DimensionSelectionFilter (doc w)) ids ->
    exists w',
      while_True (paste_round host text_above text_below
                              text_prefix text_suffix) c w
        = (Return (c + length ids)%nat, w') /\
      doc w' = foldl (paste_on text_above text_below text_prefix text_suffix) (doc w) ids /\
      gestures w' = rest /\
      alerts (trace w') = alerts (trace w).
Proof.
  induction ids as [|id ids IH]; intros c w rest Hgs Hpick;
    rewrite (while_True_unroll _ (paste_round_productive host _ _ _ _)).
  - rewrite (paste_round_cancelled host _ _ _ _ c w
               OperationCanceledException rest)
      by (rewrite Hgs; reflexivity).
    replace (c + length [])%nat with c by (simpl; lia).
    eexists. split; [reflexivity|]. cbn [doc gestures trace].
    repeat split. rewrite alerts_app. simpl. now rewrite app_nil_r.
  - apply Forall_cons in Hpick as [Hid Hids].
    pose proof Hid as Hid'. apply pickable_dimension in Hid' as (e & He & Hdim).
    assert (Hpick0 : pick_scan DimensionSelectionFilter (doc w) (gestures w)
                     = (Return (mkReference id),
                        map Click ids ++ Esc :: rest))
      by (rewrite Hgs; now apply pick_scan_Click).
    rewrite (paste_round_picked host _ _ _ _ c w _ _ e Hpick0 He).
    rewrite (paste_accepted e Hdim).
    replace (c + length (id :: ids))%nat with (S c + length ids)%nat
      by (simpl; lia).
    edestruct (IH (S c)) as (w' & Hrun & Hdoc & Hrest & Halerts);
      [| |exists w'; split; [exact Hrun|]].
    + reflexivity.
    + cbn [doc ElementId]. eapply Forall_impl; [exact Hids|].
      intros id' Hid0. apply (pickable_paste_on (doc w) id id') in Hid0.
      unfold paste_on in Hid0. now rewrite He in Hid0.
    + cbn [doc gestures trace ElementId] in *.
      split; [|split; [exact Hrest|]].
      * rewrite Hdoc. cbn [foldl]. unfold paste_on at 3. now rewrite He.
      * rewrite Halerts, alerts_app. simpl. now rewrite app_nil_r.
Qed.

(** With a host that accepts every text: after a session in which the
    operator picks a source dimension that has some text, clicks some
    dimensions and presses Esc, every clicked dimension has the four
    text fields of the source, every other element is as it was, and the
    only alert is the summary, which counts the clicks. *)
Theorem clicked_dimensions_get_source_text (w : World num) (source : Z)
    (e : Element num) (ids : list Z) (rest : list gesture) :
  gestures w = Click source :: map Click ids ++ Esc :: rest ->
  doc w !! source = Some e ->
  elem_dimension e
    = Some (mkDimensionText text_above text_below text_prefix text_suffix) ->
  no_text text_above text_below text_prefix text_suffix = false ->
  Forall (pickable DimensionSelectionFilter (doc w)) ids ->
  let w' := snd (main host w) in
  (forall id, In id ids -> doc w' !! id = pasted text_above text_below text_prefix text_suffix <$> doc w !! id) /\
  (forall id, ~ In id ids -> doc w' !! id = doc w !! id) /\
  alerts (trace w') = alerts (trace w) ++ [summary (length ids)] /\
  gestures w' = rest.
Proof.
  intros Hgs He Ht Htext Hids w'. subst w'.
  assert (Hsource : pickable DimensionSelectionFilter (doc w) source).
  { apply pickable_dimension. exists e. split; [exact He|].
    unfold is_dimension. now rewrite Ht. }
  rewrite (main_picked host w (mkReference source)
             (map Click ids ++ Esc :: rest) e _
             ltac:(rewrite Hgs; now apply pick_scan_Click) He Ht).
  cbn [Above Below Prefix Suffix]. rewrite Htext.
  match goal with
  | |- context [bind _ _ ?w1] =>
      destruct (paste_loop_clicks ids 0%nat w1 rest eq_refl Hids)
        as (w2 & Hrun & Hdoc & Hrest & Halerts)
  end.
  unfold bind. rewrite Hrun. unfold alert, emit. cbn [snd doc gestures trace].
  cbn [doc trace] in Hdoc, Halerts. rewrite Hdoc.
  split; [|split; [|split]].
  - intros id Hin. now apply foldl_paste_on_lookup.
  - intros id Hout. now apply foldl_paste_on_lookup.
  - rewrite alerts_app, Halerts, alerts_app. simpl. now rewrite app_nil_r.
  - exact Hrest.
Qed.

End DimensionClicks.

(** The source is the element located at a point. *)
Lemma unreadable_source_ends_session_witness :
  MatchElevation.main accepting_host unreadable_source_world =
  (Return tt,
   mkWorld three_targets [Click 1%Z; Esc]
           ([] ++ [EvPickObject MatchElevation.MEPElementFilter
                     SelectSourceElement;
                   EvAlert CouldNotGetElevation])
           None).
Proof.
  apply (unreadable_source_ends_session accepting_host
           unreadable_source_world (mkReference 2) [Click 1%Z; Esc]);
    reflexivity.
Defined.

(** The arc from (0,0,0) to (10,0,0) through (5,5,0). *)
Lemma middle_elevation_by_curve_witness :
  MatchElevation.get_element_middle_elevation (Some 7%Z) curves_world
  = (Return (Some 0%float), curves_world).
Proof.
  exact (proj1 (proj2 (middle_elevation_by_curve curves_world 7%Z))
           arc_element (pt 0 0 0) (pt 10 0 0) (pt 5 5 0) eq_refl eq_refl).
Defined.


(** The pipe of the document is still what it was after the session. *)
Lemma dimension_session_keeps_witness :
  doc (snd (CopieDimText.main strict_host paste_world)) !! 5%Z
  = Some (pipe (pt 0 0 0) (pt 1 1 1)).
Proof.
  apply (proj2 (dimension_session_keeps strict_host paste_world) 5%Z);
    reflexivity.
Defined.

Lemma DimensionSelectionFilter_gates_every_pick_witness :
  exists e t, dimensions !! 1%Z = Some e /\ elem_dimension e = Some t.
Proof.
  apply (proj2 (proj2 (proj2
           (DimensionSelectionFilter_gates_every_pick accepting_host)))
           dimensions [Click 99%Z; Click 1%Z; Esc] (mkReference 1) [Esc]).
  reflexivity.
Defined.

(** The elevation tool after a click on an element without a category,
    on which its filter raises; the dimension tool after Esc. *)
Lemma source_pick_cancelled_witness :
  MatchElevation.main accepting_host
    (initial_world dimensions [Click 2%Z; Click 1%Z]) =
  (Return tt,
   mkWorld dimensions [Click 1%Z]
           ([] ++ [EvPickObject MatchElevation.MEPElementFilter
                     SelectSourceElement])
           None) /\
  CopieDimText.main accepting_host cancelled_world =
  (Return tt,
   mkWorld three_targets [Click 1%Z]
           ([] ++ [EvPickObject CopieDimText.DimensionSelectionFilter
                     SelectSourceDimension;
                   EvAlert CancelledByUser])
           None).
Proof.
  split.
  - apply (proj1 (source_pick_cancelled accepting_host
                    (initial_world dimensions [Click 2%Z; Click 1%Z]))
             AttributeError [Click 1%Z]).
    reflexivity.
  - apply (proj2 (source_pick_cancelled accepting_host cancelled_world)
             [Click 1%Z]).
    reflexivity.
Defined.

(** Three dimensions clicked, one of them twice: each has the text of
    the source, its empty text below included, and the summary counts
    four. *)
Lemma clicked_dimensions_get_source_text_witness :
  let w' := snd (CopieDimText.main accepting_host paste_world) in
  (forall id,
      In id [1%Z; 2%Z; 1%Z; 3%Z] ->
      doc w' !! id
      = pasted (Some "A"%string) (Some ""%string) (Some "PRE"%string) None
          <$> doc paste_world !! id) /\
  (forall id,
      ~ In id [1%Z; 2%Z; 1%Z; 3%Z] -> doc w' !! id = doc paste_world !! id) /\
  alerts (trace w')
    = alerts (trace paste_world) ++ [summary (length [1%Z; 2%Z; 1%Z; 3%Z])] /\
  gestures w' = [].
Proof.
  apply (clicked_dimensions_get_source_text accepting_host
           (fun _ => eq_refl)
           (Some "A"%string) (Some ""%string) (Some "PRE"%string) None
           paste_world 10%Z source_dimension [1%Z; 2%Z; 1%Z; 3%Z] []);
    try reflexivity.
  repeat constructor; eexists; split; reflexivity.
Defined.
